(** * heat-grid-analysis: the daily temperature / load pipeline

    A shallow embedding of the SQL that [noaa_ingest.py], [eia_ingest.py] and
    [processing.py] send to the table engine.  A table is the list of its
    rows, a row is a record with the columns of the [SELECT] list, a nullable
    column is an [option].  Numeric columns are exact rationals ([Q]),
    timestamps are seconds since the Unix epoch ([Z]) and a [DATE] is a day
    number since the epoch ([Z]).  Integer flags stay integers, as the
    [CASE ... THEN 1 ELSE 0 END] expressions of the source produce them. *)

From Stdlib Require Import List ZArith QArith Qminmax Lia Lqa Bool.
From Stdlib Require Import String Ascii.
From Stdlib Require Import Permutation Sorted.
Import ListNotations.

Local Open Scope Z_scope.

(** ** Relational operators on lists of rows *)

Module Rel.

Section Operators.
Context {A : Type}.

(** [SELECT DISTINCT]: the first occurrence of every row is kept. *)
Fixpoint distinct (eqb : A -> A -> bool) (l : list A) : list A :=
  match l with
  | [] => []
  | x :: r => x :: filter (fun y => negb (eqb x y)) (distinct eqb r)
  end.

(** [ORDER BY]: a stable insertion sort along a boolean preorder. *)
Fixpoint insert_by (leb : A -> A -> bool) (x : A) (l : list A) : list A :=
  match l with
  | [] => [x]
  | y :: r => if leb x y then x :: l else y :: insert_by leb x r
  end.

Fixpoint order_by (leb : A -> A -> bool) (l : list A) : list A :=
  match l with
  | [] => []
  | x :: r => insert_by leb x (order_by leb r)
  end.

(** The counter of [ROW_NUMBER()]: rows numbered from [i] on. *)
Fixpoint number_from (i : Z) (l : list A) : list (Z * A) :=
  match l with
  | [] => []
  | x :: r => (i, x) :: number_from (i + 1) r
  end.

End Operators.

Section Grouping.
Context {A K B : Type}.

(** [GROUP BY key]: one output row per distinct key, computed by [agg] from
    the key and the rows of its group; groups come in the order in which
    their key first occurs. *)
Definition group_by (keqb : K -> K -> bool) (key : A -> K)
           (agg : K -> list A -> B) (l : list A) : list B :=
  map (fun k => agg k (filter (fun r => keqb (key r) k) l))
      (distinct keqb (map key l)).

(** [ROW_NUMBER() OVER (PARTITION BY key ORDER BY leb)]: every partition is
    sorted and its rows are numbered from 1. *)
Definition row_number (keqb : K -> K -> bool) (key : A -> K)
           (leb : A -> A -> bool) (l : list A) : list (Z * A) :=
  flat_map (fun k => number_from 1 (order_by leb (filter (fun r => keqb (key r) k) l)))
           (distinct keqb (map key l)).
End Grouping.

Section Joins.
Context {A B : Type}.

(** [a JOIN b ON on]. *)
Definition inner_join (on : A -> B -> bool) (l : list A) (r : list B)
  : list (A * B) :=
  flat_map (fun a => map (fun b => (a, b)) (filter (on a) r)) l.

(** [a LEFT JOIN b ON on]: a left row without a partner is kept once, with
    the right side null. *)
Definition left_join (on : A -> B -> bool) (l : list A) (r : list B)
  : list (A * option B) :=
  flat_map (fun a =>
              match filter (on a) r with
              | [] => [(a, None)]
              | ms => map (fun b => (a, Some b)) ms
              end) l.
End Joins.

(** Aggregates ignore nulls; over no value at all they are null.  Sums and
    means are exact here, where the engine computes on DOUBLE and rounds: the
    properties below are about which rows enter an aggregate and about order,
    which rounding keeps, and none rests on an exact sum or mean. *)
Definition non_null {A : Type} (l : list (option A)) : list A :=
  flat_map (fun o => match o with Some v => [v] | None => [] end) l.

Definition q_sum (l : list Q) : Q := fold_right Qplus 0%Q l.

Definition q_max (x : Q) (l : list Q) : Q := fold_left Qmax l x.

Definition SUM (l : list (option Q)) : option Q :=
  match non_null l with
  | [] => None
  | vs => Some (q_sum vs)
  end.

Definition MAX (l : list (option Q)) : option Q :=
  match non_null l with
  | [] => None
  | v :: vs => Some (q_max v vs)
  end.

Definition AVG (l : list (option Q)) : option Q :=
  match non_null l with
  | [] => None
  | vs => Some (q_sum vs / inject_Z (Z.of_nat (List.length vs)))%Q
  end.

(** Comparison with a null operand is unknown, which a [CASE WHEN] or a join
    condition treats as false. *)
Definition ge_bool (x : option Q) (y : Q) : bool :=
  match x with
  | Some v => Qle_bool y v
  | None => false
  end.

(** Lexicographic order of two sort keys. *)
Definition lex_leb {A B : Type} (cmpa : A -> A -> comparison)
           (lebb : B -> B -> bool) (x y : A * B) : bool :=
  match cmpa (fst x) (fst y) with
  | Lt => true
  | Eq => lebb (snd x) (snd y)
  | Gt => false
  end.

(** A nullable sort key: nulls last. *)
Definition option_compare {A : Type} (cmp : A -> A -> comparison)
           (x y : option A) : comparison :=
  match x, y with
  | Some a, Some b => cmp a b
  | Some _, None => Lt
  | None, Some _ => Gt
  | None, None => Eq
  end.

End Rel.

(** ** Time *)

Module Time.

(** Seconds in a day. *)
Definition day_seconds : Z := 86400.

(** [date_trunc('hour', ts)] and [date_trunc('day', ts)]. *)
Definition date_trunc_hour (ts : Z) : Z := ts / 3600 * 3600.
Definition date_trunc_day (ts : Z) : Z := ts / day_seconds * day_seconds.

(** [CAST(ts AS DATE)]: the day number of a timestamp. *)
Definition cast_date (ts : Z) : Z := ts / day_seconds.

(** [epoch(date)]: the seconds at midnight of a day number. *)
Definition epoch (d : Z) : Z := d * day_seconds.

(** The day number of a civil date (proleptic Gregorian calendar), used to
    name calendar days in the scenarios. *)
Definition days_from_civil (y m d : Z) : Z :=
  let y' := if m <=? 2 then y - 1 else y in
  let era := y' / 400 in
  let yoe := y' - era * 400 in
  let mp := (m + 9) mod 12 in
  let doy := (153 * mp + 2) / 5 + d - 1 in
  let doe := yoe * 365 + yoe / 4 - yoe / 100 + doy in
  era * 146097 + doe - 719468.

(** Midnight of a civil date as a timestamp. *)
Definition midnight (y m d : Z) : Z := epoch (days_from_civil y m d).

End Time.

(** ** noaa_ingest.py *)

Module Noaa.

Import Rel.

(** A row of [noaa_hourly_raw], with the columns the pipeline reads; a [TMP]
    field is a value and a quality code, as in ["+0250,1"]. *)
Record raw_row := {
  STATION : string;
  DATE : Z;
  TMP : option string
}.

Record temp_row := {
  t_station : string;
  t_ts_utc : Z;
  t_temp_C : option Q
}.

Record avg_row := {
  a_station : string;
  a_hour_utc : Z;
  a_temp_C : option Q
}.

(** [split_part(s, sep, 1)]: the text before the first separator. *)
Fixpoint split_part_1 (sep : ascii) (s : string) : string :=
  match s with
  | EmptyString => EmptyString
  | String c r => if Ascii.eqb c sep then EmptyString
                  else String c (split_part_1 sep r)
  end.

Definition digit_of (c : ascii) : option Z :=
  let n := Z.of_N (N_of_ascii c) in
  if (48 <=? n) && (n <=? 57) then Some (n - 48) else None.

Fixpoint parse_digits (acc : Z) (s : string) : option Z :=
  match s with
  | EmptyString => Some acc
  | String c r =>
      match digit_of c with
      | Some d => parse_digits (10 * acc + d) r
      | None => None
      end
  end.

(** [TRY_CAST(s AS INTEGER)] on the spelling the NOAA field has, an optional
    sign and decimal digits; anything else, or a value outside 32 bits, is
    null. *)
Definition try_cast_integer (s : string) : option Z :=
  let unsigned (r : string) :=
    match r with
    | EmptyString => None
    | _ => parse_digits 0 r
    end in
  let v :=
    match s with
    | String "+"%char r => unsigned r
    | String "-"%char r => option_map Z.opp (unsigned r)
    | _ => unsigned s
    end in
  match v with
  | Some n => if (- 2147483648 <=? n) && (n <=? 2147483647) then Some n else None
  | None => None
  end.

(** The station label of a NOAA station code. *)
Definition station_label (code : string) : string :=
  if String.eqb code "72403093738" then "IAD"
  else if String.eqb code "72509014739" then "BOS"
  else if String.eqb code "72219013874" then "ATL"
  else if String.eqb code "74486094789" then "NYC"
  else if String.eqb code "72259003927" then "DFW"
  else if String.eqb code "72295023174" then "LAX"
  else if String.eqb code "72793024233" then "SEA"
  else code.

(** The cleaned temperature in Celsius of a [TMP] field:
    [CASE WHEN split_part(TMP, ',', 1) = '+9999' THEN NULL
          ELSE TRY_CAST(split_part(TMP, ',', 1) AS INTEGER) / 10.0 END]. *)
Definition clean_temp_C (tmp : option string) : option Q :=
  match tmp with
  | None => None
  | Some s =>
      let v := split_part_1 ","%char s in
      if String.eqb v "+9999" then None
      else option_map (fun n => (inject_Z n / 10)%Q) (try_cast_integer v)
  end.

(** The [CREATE TABLE noaa_hourly_temp] of [load_noaa_hourly]. *)
Definition load_noaa_hourly (raw : list raw_row) : list temp_row :=
  map (fun r => {| t_station := station_label (STATION r);
                   t_ts_utc := DATE r;
                   t_temp_C := clean_temp_C (TMP r) |}) raw.

Definition station_time_eqb (x y : string * Z) : bool :=
  String.eqb (fst x) (fst y) && (snd x =? snd y).

(** [build_noaa_hourly_avg]: the mean temperature per station and hour. *)
Definition build_noaa_hourly_avg (temp : list temp_row) : list avg_row :=
  order_by
    (fun x y => lex_leb String.compare Z.leb
                        (a_station x, a_hour_utc x) (a_station y, a_hour_utc y))
    (group_by station_time_eqb
       (fun r => (t_station r, Time.date_trunc_hour (t_ts_utc r)))
       (fun k rows => {| a_station := fst k;
                         a_hour_utc := snd k;
                         a_temp_C := AVG (map t_temp_C rows) |})
       temp).

End Noaa.

(** ** eia_ingest.py: the hourly load table *)

Module Eia.

(** A row of [eia_load_hourly]. *)
Record load_row := {
  region : string;
  hour_utc : Z;
  load_mwh : option Q
}.

End Eia.

(** ** processing.py *)

Module Processing.

Import Rel.

Definition HEAT_THRESHOLD_C : Q := 32.22.

(** *** build_noaa_daily *)

Record daily_row := {
  d_station : string;
  d_day_utc : Z;
  d_daily_max_temp_C : option Q;
  d_avg_temp_C : option Q
}.

Definition station_day_leb (x y : string * Z) : bool :=
  lex_leb String.compare Z.leb x y.

(** Daily maximum and mean temperature per station: one row per station and
    day of [noaa_hourly_avg]. *)
Definition build_noaa_daily (noaa_hourly_avg : list Noaa.avg_row)
  : list daily_row :=
  order_by
    (fun x y => station_day_leb (d_station x, d_day_utc x) (d_station y, d_day_utc y))
    (group_by Noaa.station_time_eqb
       (fun r => (Noaa.a_station r, Time.date_trunc_day (Noaa.a_hour_utc r)))
       (fun k rows => {| d_station := fst k;
                         d_day_utc := snd k;
                         d_daily_max_temp_C := MAX (map Noaa.a_temp_C rows);
                         d_avg_temp_C := AVG (map Noaa.a_temp_C rows) |})
       noaa_hourly_avg).

(** *** build_noaa_heatwave_flags *)

Record base_row := {
  b_station : string;
  b_day_utc : Z;
  b_daily_max_temp_C : option Q;
  b_avg_temp_C : option Q;
  b_is_hot_day : Z;
  b_day_date : Z
}.

Record hot_day_row := {
  h_station : string;
  h_day_date : Z;
  h_rn : Z;
  h_thedate : Z
}.

Record hot_grouped_row := {
  hg_station : string;
  hg_day_date : Z;
  hg_rn : Z;
  hg_grp_id : Z
}.

Record heatwave_group_row := {
  g_station : string;
  g_grp_id : Z
}.

Record heatwave_day_row := {
  hd_station : string;
  hd_day_date : Z
}.

Record flag_row := {
  f_station : string;
  f_day_utc : Z;
  f_daily_max_temp_C : option Q;
  f_avg_temp_C : option Q;
  f_is_hot_day : Z;
  f_is_heatwave_day : Z
}.

(** The CTE [base]: the hot-day flag, with the threshold written in the
    query, and the calendar date of every daily row. *)
Definition base (noaa_daily_temp : list daily_row) : list base_row :=
  map (fun r => {| b_station := d_station r;
                   b_day_utc := d_day_utc r;
                   b_daily_max_temp_C := d_daily_max_temp_C r;
                   b_avg_temp_C := d_avg_temp_C r;
                   b_is_hot_day :=
                     if ge_bool (d_daily_max_temp_C r) 32.22 then 1 else 0;
                   b_day_date := Time.cast_date (d_day_utc r) |})
      noaa_daily_temp.

(** The CTE [hot_days]: the hot days of every station, numbered by date. *)
Definition hot_days (b : list base_row) : list hot_day_row :=
  map (fun nr => {| h_station := b_station (snd nr);
                    h_day_date := b_day_date (snd nr);
                    h_rn := fst nr;
                    h_thedate := b_day_date (snd nr) |})
      (row_number String.eqb b_station
                  (fun x y => b_day_date x <=? b_day_date y)
                  (filter (fun r => b_is_hot_day r =? 1) b)).

(** The CTE [hot_grouped]: [grp_id] is the day number minus the rank. *)
Definition hot_grouped (h : list hot_day_row) : list hot_grouped_row :=
  map (fun r => {| hg_station := h_station r;
                   hg_day_date := h_day_date r;
                   hg_rn := h_rn r;
                   hg_grp_id :=
                     Time.epoch (h_day_date r) / 86400 - h_rn r |}) h.

Definition group_key_eqb (x y : string * Z) : bool :=
  String.eqb (fst x) (fst y) && (snd x =? snd y).

(** The CTE [heatwave_groups]: the groups of three hot days or more. *)
Definition heatwave_groups (hg : list hot_grouped_row)
  : list heatwave_group_row :=
  map (fun kc => {| g_station := fst (fst kc); g_grp_id := snd (fst kc) |})
      (filter (fun kc => 3 <=? snd kc)
              (group_by group_key_eqb
                        (fun r => (hg_station r, hg_grp_id r))
                        (fun k rows => (k, Z.of_nat (List.length rows)))
                        hg)).

(** The CTE [heatwave_days]: the days of these groups. *)
Definition heatwave_days (hg : list hot_grouped_row)
           (g : list heatwave_group_row) : list heatwave_day_row :=
  map (fun p => {| hd_station := hg_station (fst p);
                   hd_day_date := hg_day_date (fst p) |})
      (inner_join (fun h g => String.eqb (hg_station h) (g_station g)
                              && (hg_grp_id h =? g_grp_id g))
                  hg g).

(** The table [noaa_heatwave_flags]. *)
Definition build_noaa_heatwave_flags (noaa_daily_temp : list daily_row)
  : list flag_row :=
  let b := base noaa_daily_temp in
  let hg := hot_grouped (hot_days b) in
  let hd := heatwave_days hg (heatwave_groups hg) in
  order_by
    (fun x y => station_day_leb (f_station x, f_day_utc x) (f_station y, f_day_utc y))
    (map (fun p => {| f_station := b_station (fst p);
                      f_day_utc := b_day_utc (fst p);
                      f_daily_max_temp_C := b_daily_max_temp_C (fst p);
                      f_avg_temp_C := b_avg_temp_C (fst p);
                      f_is_hot_day := b_is_hot_day (fst p);
                      f_is_heatwave_day :=
                        match snd p with Some _ => 1 | None => 0 end |})
         (left_join (fun b hd => String.eqb (b_station b) (hd_station hd)
                                 && (Time.cast_date (b_day_utc b) =? hd_day_date hd))
                    b hd)).

(** *** build_eia_daily_load *)

Record daily_load_row := {
  e_region : string;
  e_day_utc : Z;
  e_daily_total_mwh : option Q;
  e_daily_peak_mwh : option Q
}.

Definition option_Qeq_bool (x y : option Q) : bool :=
  match x, y with
  | Some a, Some b => Qeq_bool a b
  | None, None => true
  | _, _ => false
  end.

Definition load_row_eqb (x y : Eia.load_row) : bool :=
  String.eqb (Eia.region x) (Eia.region y)
  && (Eia.hour_utc x =? Eia.hour_utc y)
  && option_Qeq_bool (Eia.load_mwh x) (Eia.load_mwh y).

(** The CTE [hourly_unique]: [SELECT DISTINCT region, hour_utc, load_mwh]. *)
Definition hourly_unique (eia_load_hourly : list Eia.load_row)
  : list Eia.load_row :=
  distinct load_row_eqb eia_load_hourly.

(** Total energy and highest hourly demand per region and day. *)
Definition build_eia_daily_load (eia_load_hourly : list Eia.load_row)
  : list daily_load_row :=
  order_by
    (fun x y => station_day_leb (e_region x, e_day_utc x) (e_region y, e_day_utc y))
    (group_by Noaa.station_time_eqb
       (fun r => (Eia.region r, Time.date_trunc_day (Eia.hour_utc r)))
       (fun k rows => {| e_region := fst k;
                         e_day_utc := snd k;
                         e_daily_total_mwh := SUM (map Eia.load_mwh rows);
                         e_daily_peak_mwh := MAX (map Eia.load_mwh rows) |})
       (hourly_unique eia_load_hourly)).

(** *** heat_load_daily *)

Record heat_load_row := {
  station : string;
  region : option string;
  day_utc : Z;
  daily_max_temp_C : option Q;
  avg_temp_C : option Q;
  is_hot_day : Z;
  is_heatwave_day : Z;
  daily_total_mwh : option Q;
  daily_peak_mwh : option Q
}.

(** The region written to the output: a [CASE] without [ELSE]. *)
Definition output_region (s : string) : option string :=
  if String.eqb s "IAD" then Some "PJM"%string
  else if String.eqb s "BOS" then Some "ISNE"%string
  else None.

(** The region of the join condition:
    [CASE WHEN n.station = 'IAD' THEN 'PJM' ELSE 'ISNE' END]. *)
Definition join_region (s : string) : string :=
  if String.eqb s "IAD" then "PJM" else "ISNE".

Definition join_on (n : flag_row) (e : daily_load_row) : bool :=
  String.eqb (e_region e) (join_region (f_station n))
  && (e_day_utc e =? f_day_utc n).

(** The table [heat_load_daily]: weather merged with load. *)
Definition heat_load_daily (noaa_heatwave_flags : list flag_row)
           (eia_daily_load : list daily_load_row) : list heat_load_row :=
  order_by
    (fun x y =>
       lex_leb (option_compare String.compare) Z.leb
               (region x, day_utc x) (region y, day_utc y))
    (map (fun p =>
            let n := fst p in
            {| station := f_station n;
               region := output_region (f_station n);
               day_utc := f_day_utc n;
               daily_max_temp_C := f_daily_max_temp_C n;
               avg_temp_C := f_avg_temp_C n;
               is_hot_day := f_is_hot_day n;
               is_heatwave_day := f_is_heatwave_day n;
               daily_total_mwh :=
                 match snd p with Some e => e_daily_total_mwh e | None => None end;
               daily_peak_mwh :=
                 match snd p with Some e => e_daily_peak_mwh e | None => None end |})
         (left_join join_on noaa_heatwave_flags eia_daily_load)).

(** The four steps of the script, from the two hourly tables. *)
Definition main (noaa_hourly_avg : list Noaa.avg_row)
           (eia_load_hourly : list Eia.load_row) : list heat_load_row :=
  heat_load_daily (build_noaa_heatwave_flags (build_noaa_daily noaa_hourly_avg))
                  (build_eia_daily_load eia_load_hourly).

End Processing.

(** ** Notions the properties are stated with *)

Module Spec.

Import Processing.

(** Station [s] has a hot day on calendar day [x] in the daily table. *)
Definition hot_on (noaa_daily_temp : list daily_row) (s : string) (x : Z) : Prop :=
  exists r, In r noaa_daily_temp /\ d_station r = s
            /\ Time.cast_date (d_day_utc r) = x
            /\ Rel.ge_bool (d_daily_max_temp_C r) 32.22 = true.

(** The [k] calendar days from [d] on are a maximal run of hot days of station
    [s]: all of them are hot, the day before and the day after are not. *)
Definition maximal_run (noaa_daily_temp : list daily_row) (s : string)
           (d k : Z) : Prop :=
  (forall x, d <= x < d + k -> hot_on noaa_daily_temp s x)
  /\ ~ hot_on noaa_daily_temp s (d - 1)
  /\ ~ hot_on noaa_daily_temp s (d + k).

(** The [k] calendar days from [d] on. *)
Fixpoint days_from (d : Z) (k : nat) : list Z :=
  match k with
  | O => []
  | S k' => d :: days_from (d + 1) k'
  end.

(** The hot days of station [s] as [hot_days] numbers them: the partition of
    the station in date order, and its dates. *)
Definition hot_partition (noaa_daily_temp : list daily_row) (s : string)
  : list base_row :=
  Rel.order_by (fun x y => b_day_date x <=? b_day_date y)
    (filter (fun r => String.eqb (b_station r) s)
            (filter (fun r => b_is_hot_day r =? 1) (base noaa_daily_temp))).

Definition hot_dates (noaa_daily_temp : list daily_row) (s : string) : list Z :=
  map b_day_date (hot_partition noaa_daily_temp s).

(** The daily table has one row per station and calendar day. *)
Definition one_row_per_day (noaa_daily_temp : list daily_row) : Prop :=
  NoDup (map (fun r => (d_station r, Time.cast_date (d_day_utc r))) noaa_daily_temp).

(** In the flag table, station [s] has a row on calendar day [x] and every
    such row carries the heatwave flag [v]. *)
Definition flagged (noaa_daily_temp : list daily_row) (s : string) (x v : Z)
  : Prop :=
  (exists o, In o (build_noaa_heatwave_flags noaa_daily_temp)
             /\ f_station o = s /\ Time.cast_date (f_day_utc o) = x)
  /\ (forall o, In o (build_noaa_heatwave_flags noaa_daily_temp) ->
                f_station o = s -> Time.cast_date (f_day_utc o) = x ->
                f_is_heatwave_day o = v).

(** The rows of station [s], in the daily table and in the flag table. *)
Definition daily_of (s : string) (t : list daily_row) : list daily_row :=
  filter (fun r => String.eqb (d_station r) s) t.

Definition flags_of_station (s : string) (t : list flag_row) : list flag_row :=
  filter (fun r => String.eqb (f_station r) s) t.

(** The distinct calendar days on which station [s] has an hourly row, and
    those on which it has an hourly row with a temperature. *)
Definition reading_days (s : string) (hourly : list Noaa.avg_row) : list Z :=
  Rel.distinct Z.eqb
    (map (fun r => Time.date_trunc_day (Noaa.a_hour_utc r))
         (filter (fun r => String.eqb (Noaa.a_station r) s) hourly)).

Definition non_null_reading_days (s : string) (hourly : list Noaa.avg_row)
  : list Z :=
  Rel.distinct Z.eqb
    (map (fun r => Time.date_trunc_day (Noaa.a_hour_utc r))
         (filter (fun r => String.eqb (Noaa.a_station r) s
                           && match Noaa.a_temp_C r with
                              | Some _ => true
                              | None => false
                              end) hourly)).

(** The hourly rows of a region and day. *)
Definition load_readings (rg : string) (day : Z) (hourly : list Eia.load_row)
  : list Eia.load_row :=
  filter (fun r => String.eqb (Eia.region r) rg
                   && (Time.date_trunc_day (Eia.hour_utc r) =? day)) hourly.

(** The temperature side of an output row. *)
Definition temperature_side (o : heat_load_row) : flag_row :=
  {| f_station := station o;
     f_day_utc := day_utc o;
     f_daily_max_temp_C := daily_max_temp_C o;
     f_avg_temp_C := avg_temp_C o;
     f_is_hot_day := is_hot_day o;
     f_is_heatwave_day := is_heatwave_day o |}.

(** A station the output [CASE] has no branch for. *)
Definition unmapped (s : string) : Prop := s <> "IAD"%string /\ s <> "BOS"%string.

End Spec.

(** ** Scenarios *)

Module Scenario.

Import Processing.

(** The daily row of station X on a day of July 2024. *)
Definition july (day : Z) (max avg : option Q) : daily_row :=
  {| d_station := "X";
     d_day_utc := Time.midnight 2024 7 day;
     d_daily_max_temp_C := max;
     d_avg_temp_C := avg |}.

(** Six consecutive days from 2024-07-01 on with the given daily maxima. *)
Definition six_days (m1 m2 m3 m4 m5 m6 a1 a2 a3 a4 a5 a6 : option Q)
  : list daily_row :=
  [july 1 m1 a1; july 2 m2 a2; july 3 m3 a3;
   july 4 m4 a4; july 5 m5 a5; july 6 m6 a6].

Definition hourly (rg : string) (h : Z) (v : Q) : Eia.load_row :=
  {| Eia.region := rg;
     Eia.hour_utc := Time.midnight 2024 7 1 + h * 3600;
     Eia.load_mwh := Some v |}.

Definition flag (s : string) (day : Z) : flag_row :=
  {| f_station := s;
     f_day_utc := Time.midnight 2024 7 day;
     f_daily_max_temp_C := Some 33%Q;
     f_avg_temp_C := Some 28%Q;
     f_is_hot_day := 1;
     f_is_heatwave_day := 0 |}.

Definition load (rg : string) (day : Z) (total peak : Q) : daily_load_row :=
  {| e_region := rg;
     e_day_utc := Time.midnight 2024 7 day;
     e_daily_total_mwh := Some total;
     e_daily_peak_mwh := Some peak |}.

End Scenario.

(** ** eia_ingest.py: fetching and the hourly load table *)

Module EiaIngest.

Import Rel.

(** How a call ends: with a value, with an exception, or not within the
    steps the model was given. *)
Inductive run (A : Type) : Type :=
| Returned (a : A)
| Raised
| Unfinished.

Arguments Returned {A} a.
Arguments Raised {A}.
Arguments Unfinished {A}.

Definition page_size : nat := 5000.

(** The pagination loop of [fetch_eia_data].  [get offset] is the answer of
    the service to the request at [offset]: [None] when the request fails
    ([raise_for_status]), the rows of the page otherwise.  The loop stops at
    an empty page and after a short page. *)
Fixpoint fetch_pages {A : Type} (fuel : nat) (get : nat -> option (list A))
         (offset : nat) (all_rows : list A) : run (list A) :=
  match fuel with
  | O => Unfinished
  | S fuel' =>
      match get offset with
      | None => Raised
      | Some [] => Returned all_rows
      | Some rows =>
          let all_rows := all_rows ++ rows in
          if (List.length rows <? page_size)%nat then Returned all_rows
          else fetch_pages fuel' get (offset + page_size)%nat all_rows
      end
  end.

(** An unset or empty API key is refused before any request. *)
Definition fetch_eia_data {A : Type} (EIA_API_KEY : option string) (fuel : nat)
           (get : nat -> option (list A)) : run (list A) :=
  match EIA_API_KEY with
  | None => Raised
  | Some EmptyString => Raised
  | Some _ => fetch_pages fuel get 0%nat []
  end.

(** A service that holds [data] and answers a request with the page of at
    most [page_size] rows at its offset. *)
Definition serve {A : Type} (data : list A) (offset : nat) : option (list A) :=
  Some (firstn page_size (skipn offset data)).

(** A row of [eia_hourly_raw], with the columns the next query reads. *)
Record raw_row := {
  period : string;
  parent : string;
  subba : string;
  value_mwh : option Q
}.

(** All the values of a list of options, when none is missing. *)
Fixpoint all_some {A : Type} (l : list (option A)) : option (list A) :=
  match l with
  | [] => Some []
  | None :: _ => None
  | Some x :: r => option_map (cons x) (all_some r)
  end.

(** The table [eia_load_hourly] that [load_eia_to_duckdb] makes: the load per
    parent region and hour, summed over the sub-regions.  With no row at all
    the function returns before it makes a table.  [strptime] is the engine's
    [STRPTIME(period, '%Y-%m-%dT%H')]; a period it cannot read makes the
    statement fail, and no table is made. *)
Definition eia_load_hourly (strptime : string -> option Z) (raw : list raw_row)
  : option (list Eia.load_row) :=
  match raw with
  | [] => None
  | _ =>
      match all_some (map (fun r => option_map (fun h => (parent r, h, value_mwh r))
                                               (strptime (period r))) raw) with
      | None => None
      | Some rows =>
          Some (order_by
                  (fun x y => lex_leb String.compare Z.leb
                                      (Eia.region x, Eia.hour_utc x)
                                      (Eia.region y, Eia.hour_utc y))
                  (group_by Noaa.station_time_eqb
                            (fun r => (fst (fst r), snd (fst r)))
                            (fun k g => {| Eia.region := fst k;
                                           Eia.hour_utc := snd k;
                                           Eia.load_mwh := SUM (map snd g) |})
                            rows))
      end
  end.

End EiaIngest.

(** ** scripts/base_combine_processing.py *)

Module Combine.

Import Rel.

(** The temporary table [mapping]. *)
Definition mapping : list (string * string) :=
  [("IAD", "PJM"); ("BOS", "ISNE"); ("NYC", "NYIS"); ("LAX", "CISO")]%string.

Record combine_row := {
  hour_utc : Z;
  location : string;
  temp : option Q;
  load_mwh : option Q
}.

(** [DELETE FROM base_combine WHERE load_mwh > 500000 OR load_mwh <= 0]: on a
    null load the condition is unknown and the row stays. *)
Definition deleted (r : combine_row) : bool :=
  match load_mwh r with
  | Some v => negb (Qle_bool v 500000) || Qle_bool v 0
  | None => false
  end.

(** [combine_table]: hourly temperature joined with the hourly load of the
    mapped region, then cleaned. *)
Definition combine_table (noaa_hourly_avg : list Noaa.avg_row)
           (eia_load_hourly : list Eia.load_row) : list combine_row :=
  filter (fun r => negb (deleted r))
    (order_by
       (fun x y => lex_leb Z.compare String.leb
                           (hour_utc x, location x) (hour_utc y, location y))
       (map (fun p =>
               let n := fst (fst p) in
               let e := snd p in
               {| hour_utc := Noaa.a_hour_utc n;
                  location := Noaa.a_station n;
                  temp := Noaa.a_temp_C n;
                  load_mwh := Eia.load_mwh e |})
            (inner_join
               (fun nm e => String.eqb (Eia.region e) (snd (snd nm))
                            && (Eia.hour_utc e =? Noaa.a_hour_utc (fst nm)))
               (inner_join (fun n m => String.eqb (Noaa.a_station n) (fst m))
                           noaa_hourly_avg mapping)
               eia_load_hourly))).

End Combine.

(** ** analysis.py *)

Module Analysis.

(** The [day_type] column of [load_data]: every row starts as a normal day,
    then the hot days are relabelled, then the heatwave days. *)
Definition day_type (r : Processing.heat_load_row) : string :=
  let t := "Normal Day"%string in
  let t := if Processing.is_hot_day r =? 1 then "Hot Day"%string else t in
  let t := if Processing.is_heatwave_day r =? 1 then "Heatwave Day"%string else t in
  t.

End Analysis.

(** ** Further notions the properties are stated with *)

Module Notions.

Import Processing.

(** The daily temperature side of a flag row. *)
Definition daily_side (o : flag_row) : daily_row :=
  {| d_station := f_station o;
     d_day_utc := f_day_utc o;
     d_daily_max_temp_C := f_daily_max_temp_C o;
     d_avg_temp_C := f_avg_temp_C o |}.

(** Calendar day [x] of station [s] lies in a maximal run of at least three
    hot days. *)
Definition in_heatwave (noaa_daily_temp : list daily_row) (s : string) (x : Z)
  : Prop :=
  exists d k, 3 <= k /\ Spec.maximal_run noaa_daily_temp s d k /\ d <= x < d + k.

(** The number of output rows the join makes of a flag row: one per partner
    in the load table, and one when it has none. *)
Definition fan_out (e : list daily_load_row) (n : flag_row) : nat :=
  Nat.max 1 (List.length (filter (join_on n) e)).

(** The hourly temperatures of a station on a day, and the raw samples of a
    station in an hour. *)
Definition day_temps (s : string) (day : Z) (hourly : list Noaa.avg_row)
  : list (option Q) :=
  map Noaa.a_temp_C
      (filter (fun r => String.eqb (Noaa.a_station r) s
                        && (Time.date_trunc_day (Noaa.a_hour_utc r) =? day))
              hourly).

Definition hour_samples (s : string) (hour : Z) (temp : list Noaa.temp_row)
  : list (option Q) :=
  map Noaa.t_temp_C
      (filter (fun r => String.eqb (Noaa.t_station r) s
                        && (Time.date_trunc_hour (Noaa.t_ts_utc r) =? hour))
              temp).

(** The table has one row per region and hour. *)
Definition one_row_per_hour (eia_load_hourly : list Eia.load_row) : Prop :=
  NoDup (map (fun r => (Eia.region r, Eia.hour_utc r)) eia_load_hourly).

(** The observations of one region and hour carry the same load: the table
    has one row per region and hour, or rows that repeat one another. *)
Definition loads_agree (eia_load_hourly : list Eia.load_row) : Prop :=
  forall x y, In x eia_load_hourly -> In y eia_load_hourly ->
              Eia.region x = Eia.region y -> Eia.hour_utc x = Eia.hour_utc y ->
              option_Qeq_bool (Eia.load_mwh x) (Eia.load_mwh y) = true.

End Notions.

(** ** Facts about the relational operators *)

Module RelFacts.

Import Rel.

Section Ordering.
Context {A : Type} (leb : A -> A -> bool).

Lemma insert_by_perm (x : A) (l : list A) :
  Permutation (insert_by leb x l) (x :: l).
Proof.
  induction l as [|y r IH]; simpl; [reflexivity|].
  destruct (leb x y); [reflexivity|].
  rewrite IH. apply perm_swap.
Qed.

Lemma order_by_perm (l : list A) : Permutation (order_by leb l) l.
Proof.
  induction l as [|x r IH]; simpl; [constructor|].
  rewrite insert_by_perm. now constructor.
Qed.

Lemma order_by_In (l : list A) (x : A) : In x (order_by leb l) <-> In x l.
Proof.
  split; apply Permutation_in; [|symmetry]; apply order_by_perm.
Qed.

Lemma order_by_length (l : list A) :
  List.length (order_by leb l) = List.length l.
Proof. apply Permutation_length, order_by_perm. Qed.

(** Sorting along a total, transitive order gives a sorted list. *)
Hypothesis leb_total : forall x y, leb x y = true \/ leb y x = true.
Hypothesis leb_trans : forall x y z, leb x y = true -> leb y z = true -> leb x z = true.

Lemma insert_by_sorted (x : A) (l : list A) :
  StronglySorted (fun a b => leb a b = true) l ->
  StronglySorted (fun a b => leb a b = true) (insert_by leb x l).
Proof.
  induction 1 as [|y r Hs IH Hall]; simpl.
  - repeat constructor.
  - destruct (leb x y) eqn:E.
    + constructor; [now constructor|].
      constructor; [exact E|].
      rewrite Forall_forall in *. intros z Hz. eauto.
    + constructor; [exact IH|].
      rewrite Forall_forall in *. intros z Hz.
      apply (Permutation_in _ (insert_by_perm x r)) in Hz.
      destruct Hz as [<-|Hz]; [|auto].
      destruct (leb_total x y) as [H|H]; congruence.
Qed.

Lemma order_by_sorted (l : list A) :
  StronglySorted (fun a b => leb a b = true) (order_by leb l).
Proof.
  induction l; simpl; [constructor|now apply insert_by_sorted].
Qed.

End Ordering.

Section Filtering.
Context {A : Type}.

Lemma filter_length_perm (p : A -> bool) (l l' : list A) :
  Permutation l l' ->
  List.length (filter p l) = List.length (filter p l').
Proof.
  induction 1; simpl; try congruence.
  - destruct (p x); simpl; congruence.
  - destruct (p x), (p y); simpl; congruence.
Qed.

Lemma filter_all (p : A -> bool) (l : list A) :
  (forall x, In x l -> p x = true) -> filter p l = l.
Proof.
  induction l as [|x r IH]; simpl; intros H; [reflexivity|].
  rewrite (H x) by now left. f_equal. apply IH. intros; apply H; now right.
Qed.

Lemma filter_none (p : A -> bool) (l : list A) :
  (forall x, In x l -> p x = false) -> filter p l = [].
Proof.
  induction l as [|x r IH]; simpl; intros H; [reflexivity|].
  rewrite (H x) by now left. apply IH. intros; apply H; now right.
Qed.

Lemma filter_filter (p q : A -> bool) (l : list A) :
  filter p (filter q l) = filter (fun x => q x && p x) l.
Proof.
  induction l as [|x r IH]; simpl; [reflexivity|].
  destruct (q x); simpl; [destruct (p x)|]; now rewrite IH.
Qed.

Lemma filter_comm (p q : A -> bool) (l : list A) :
  filter p (filter q l) = filter q (filter p l).
Proof.
  rewrite !filter_filter. apply filter_ext. intros; apply andb_comm.
Qed.

End Filtering.

Section Distinct.
Context {A : Type} (eqb : A -> A -> bool).

Lemma distinct_incl (l : list A) (x : A) : In x (distinct eqb l) -> In x l.
Proof.
  revert x. induction l as [|y r IH]; simpl; intros x; [tauto|].
  intros [->|H]; [now left|]. right. apply IH.
  apply filter_In in H. tauto.
Qed.

(** [distinct] and a filter that does not tell equal rows apart commute. *)
Lemma distinct_filter (p : A -> bool) (l : list A) :
  (forall x y, eqb x y = true -> p x = p y) ->
  filter p (distinct eqb l) = distinct eqb (filter p l).
Proof.
  intros Hp. induction l as [|x r IH]; simpl; [reflexivity|].
  destruct (p x) eqn:E; simpl.
  - rewrite filter_comm, IH. reflexivity.
  - rewrite <- IH. rewrite filter_filter. apply filter_ext_in.
    intros y _. destruct (eqb x y) eqn:Exy; simpl; [|reflexivity].
    apply Hp in Exy. congruence.
Qed.

Hypothesis eqb_spec : forall x y, eqb x y = true <-> x = y.

Lemma distinct_In (l : list A) (x : A) : In x (distinct eqb l) <-> In x l.
Proof.
  split; [apply distinct_incl|].
  induction l as [|y r IH]; simpl; [tauto|].
  intros [->|H]; [now left|].
  destruct (eqb y x) eqn:E.
  - left. now apply eqb_spec.
  - right. apply filter_In. split; [auto|]. now rewrite E.
Qed.

Lemma distinct_NoDup (l : list A) : NoDup (distinct eqb l).
Proof.
  induction l as [|x r IH]; simpl; constructor.
  - intros H. apply filter_In in H. destruct H as [_ H].
    assert (eqb x x = true) by now apply eqb_spec.
    rewrite H0 in H. discriminate.
  - now apply NoDup_filter.
Qed.

End Distinct.

(** [distinct] through a projection that carries one equality to the other
    on the rows of the table. *)
Lemma distinct_map {A B : Type} (eqa : A -> A -> bool) (eqb : B -> B -> bool)
      (f : A -> B) (l : list A) :
  (forall x y, In x l -> In y l -> eqa x y = eqb (f x) (f y)) ->
  map f (distinct eqa l) = distinct eqb (map f l).
Proof.
  induction l as [|x r IH]; intros H; simpl; [reflexivity|].
  f_equal. rewrite <- IH by (intros; apply H; now right). clear IH.
  assert (Hsub : forall y, In y (distinct eqa r) -> In y r)
    by (intros y; apply distinct_incl).
  induction (distinct eqa r) as [|y r' IH']; simpl; [reflexivity|].
  rewrite <- (H x y (or_introl eq_refl) (or_intror (Hsub y (or_introl eq_refl)))).
  assert (Hsub' : forall z, In z r' -> In z r)
    by (intros; apply Hsub; now right).
  destruct (eqa x y); simpl; rewrite (IH' Hsub'); reflexivity.
Qed.

(** When the equality is reflexive and transitive, every row has a
    representative among the distinct rows. *)
Lemma distinct_repr {A : Type} (eqb : A -> A -> bool) (l : list A) (x : A) :
  (forall a, eqb a a = true) ->
  (forall a b c, eqb a b = true -> eqb b c = true -> eqb a c = true) ->
  In x l -> exists y, In y (distinct eqb l) /\ eqb y x = true.
Proof.
  intros Hrefl Htrans. induction l as [|z r IH]; simpl; [tauto|].
  intros [->|Hin].
  - exists x. auto.
  - destruct (IH Hin) as (y & Hy & Eyx).
    destruct (eqb z y) eqn:Ezy.
    + exists z. split; [now left|]. eauto.
    + exists y. split; [|exact Eyx]. right.
      apply filter_In. now rewrite Ezy.
Qed.

Lemma non_null_In {A : Type} (l : list (option A)) (v : A) :
  In v (non_null l) <-> In (Some v) l.
Proof.
  unfold non_null. rewrite in_flat_map. split.
  - intros ([w|] & Hin & Hv); simpl in Hv; [|tauto].
    destruct Hv as [->|[]]. exact Hin.
  - intros Hin. exists (Some v). simpl. auto.
Qed.

Section Joining.
Context {A B : Type} (on : A -> B -> bool).

Lemma left_join_In (l : list A) (r : list B) (a : A) (o : option B) :
  In (a, o) (left_join on l r) <->
  In a l /\ match o with
            | Some b => In b r /\ on a b = true
            | None => forall b, In b r -> on a b = false
            end.
Proof.
  unfold left_join. rewrite in_flat_map. split.
  - intros (a' & Ha & H).
    destruct (filter (on a') r) as [|m ms] eqn:E.
    + destruct H as [H|[]]. inversion H; subst. split; [auto|].
      intros b Hb. destruct (on a b) eqn:Eb; [|reflexivity].
      assert (Hin : In b (filter (on a) r)) by (apply filter_In; auto).
      rewrite E in Hin. destruct Hin.
    + apply in_map_iff in H. destruct H as (b & Hb & Hin).
      inversion Hb; subst. split; [auto|].
      rewrite <- E in Hin. now apply filter_In in Hin.
  - intros (Ha & H). exists a. split; [auto|].
    destruct o as [b|].
    + assert (Hin : In b (filter (on a) r)) by (apply filter_In; auto).
      destruct (filter (on a) r) as [|m ms]; [destruct Hin|].
      apply in_map_iff. eauto.
    + rewrite (filter_none _ _ H). now left.
Qed.

(** When every left row has at most one partner, the left join keeps the
    left table row by row. *)
Lemma left_join_unique (l : list A) (r : list B) :
  (forall a, In a l -> (List.length (filter (on a) r) <= 1)%nat) ->
  map fst (left_join on l r) = l.
Proof.
  induction l as [|a l IH]; intros H; [reflexivity|].
  change (left_join on (a :: l) r)
    with (match filter (on a) r with
          | [] => [(a, None)]
          | ms => map (fun b => (a, Some b)) ms
          end ++ left_join on l r).
  rewrite map_app, IH by (intros; apply H; now right).
  specialize (H a (or_introl eq_refl)).
  destruct (filter (on a) r) as [|m [|m' ms]]; simpl in *; try reflexivity; lia.
Qed.

End Joining.

End RelFacts.

(** ** Date minus rank on an increasing list of days *)

Module RankFacts.

Import Rel RelFacts Spec.

Lemma number_from_app {A : Type} (l1 l2 : list A) (i : Z) :
  number_from i (l1 ++ l2)
  = number_from i l1 ++ number_from (i + Z.of_nat (List.length l1)) l2.
Proof.
  revert i. induction l1 as [|x r IH]; intros i; simpl.
  - f_equal. lia.
  - rewrite IH. do 3 f_equal. lia.
Qed.

Lemma number_from_map {A B : Type} (f : A -> B) (l : list A) (i : Z) :
  number_from i (map f l) = map (fun p => (fst p, f (snd p))) (number_from i l).
Proof.
  revert i. induction l as [|x r IH]; intros i; simpl; [reflexivity|].
  now rewrite IH.
Qed.

Lemma number_from_length {A : Type} (l : list A) (i : Z) :
  List.length (number_from i l) = List.length l.
Proof. revert i. induction l; intros; simpl; auto. Qed.

Lemma number_from_snd {A : Type} (l : list A) (i : Z) :
  map snd (number_from i l) = l.
Proof. revert i. induction l; intros; simpl; [|f_equal]; auto. Qed.

(** Below an increasing list of days that all stay under [b], the head leaves
    room for the whole list. *)
Lemma increasing_room (b x : Z) (l : list Z) :
  StronglySorted Z.lt (x :: l) ->
  (forall y, In y (x :: l) -> y < b) ->
  x + Z.of_nat (List.length (x :: l)) <= b.
Proof.
  revert x. induction l as [|y r IH]; intros x Hs Hb.
  - specialize (Hb x (or_introl eq_refl)). simpl. lia.
  - inversion Hs as [|? ? Hs' Hall]; subst.
    assert (x < y) by (inversion Hall; assumption).
    specialize (IH y Hs' (fun z Hz => Hb z (or_intror Hz))).
    change (List.length (x :: y :: r)) with (S (List.length (y :: r))). lia.
Qed.

(** The days before a run: their date minus rank stays below that of the
    run. *)
Lemma grp_low (b : Z) (l : list Z) (i : Z) (p : Z * Z) :
  StronglySorted Z.lt l ->
  (forall y, In y l -> y < b) ->
  In p (number_from i l) ->
  snd p - fst p <= b - Z.of_nat (List.length l) - i.
Proof.
  revert i. induction l as [|x r IH]; intros i Hs Hb Hin; [destruct Hin|].
  destruct Hin as [<-|Hin].
  - pose proof (increasing_room b x r Hs Hb). simpl fst; simpl snd. lia.
  - inversion Hs; subst.
    specialize (IH (i + 1) H1 (fun z Hz => Hb z (or_intror Hz)) Hin).
    change (List.length (x :: r)) with (S (List.length r)). lia.
Qed.

(** The days of a run share their date minus rank. *)
Lemma grp_run (k : nat) (d i : Z) (p : Z * Z) :
  In p (number_from i (days_from d k)) -> snd p - fst p = d - i.
Proof.
  revert d i. induction k as [|k IH]; intros d i Hin; [destruct Hin|].
  destruct Hin as [<-|Hin]; [reflexivity|].
  apply IH in Hin. lia.
Qed.

(** The days after a run: their date minus rank is above. *)
Lemma grp_high (c : Z) (l : list Z) (i : Z) (p : Z * Z) :
  StronglySorted Z.lt l ->
  (forall y, In y l -> c + i < y) ->
  In p (number_from i l) ->
  c < snd p - fst p.
Proof.
  revert i. induction l as [|x r IH]; intros i Hs Hb Hin; [destruct Hin|].
  inversion Hs as [|? ? Hs' Hall]; subst. rewrite Forall_forall in Hall.
  destruct Hin as [<-|Hin].
  - specialize (Hb x (or_introl eq_refl)). simpl. lia.
  - apply (IH (i + 1)); auto. intros y Hy.
    specialize (Hall y Hy). specialize (Hb x (or_introl eq_refl)). lia.
Qed.

Lemma days_from_length (d : Z) (k : nat) : List.length (days_from d k) = k.
Proof. revert d. induction k; intros; simpl; auto. Qed.

Lemma days_from_In (d : Z) (k : nat) (x : Z) :
  In x (days_from d k) <-> d <= x < d + Z.of_nat k.
Proof.
  revert d. induction k as [|k IH]; intros d; simpl; [lia|].
  rewrite IH. lia.
Qed.

(** An increasing list that starts at [d] and holds the [k] days from [d] on
    but not the day after begins with exactly these days. *)
Lemma run_prefix (k : nat) (d : Z) (l : list Z) :
  StronglySorted Z.lt l ->
  (forall x, In x l -> d <= x) ->
  (forall x, d <= x < d + Z.of_nat k -> In x l) ->
  ~ In (d + Z.of_nat k) l ->
  exists l2, l = days_from d k ++ l2 /\ forall y, In y l2 -> d + Z.of_nat k < y.
Proof.
  revert d l. induction k as [|k IH]; intros d l Hs Hlow Hrun Hend.
  - exists l. split; [reflexivity|]. intros y Hy.
    specialize (Hlow y Hy). assert (y <> d + Z.of_nat 0) by congruence. lia.
  - destruct l as [|x r].
    + exfalso. apply (Hrun d). lia.
    + inversion Hs as [|? ? Hs' Hall]; subst. rewrite Forall_forall in Hall.
      assert (x = d) as ->.
      { destruct (Hrun d ltac:(lia)) as [E|Hin]; [exact E|].
        specialize (Hall d Hin). specialize (Hlow x (or_introl eq_refl)). lia. }
      destruct (IH (d + 1) r Hs') as (l2 & -> & Hl2).
      * intros y Hy. specialize (Hall y Hy). lia.
      * intros y Hy. destruct (Hrun y ltac:(lia)) as [E|Hin]; [lia|exact Hin].
      * intros Hin. apply Hend. right.
        replace (d + Z.of_nat (S k)) with (d + 1 + Z.of_nat k) by lia. exact Hin.
      * exists l2. split; [reflexivity|]. intros y Hy.
        specialize (Hl2 y Hy). lia.
Qed.

(** An increasing list of days splits around a maximal run. *)
Lemma run_split (k : nat) (d : Z) (l : list Z) :
  StronglySorted Z.lt l ->
  (forall x, d <= x < d + Z.of_nat k -> In x l) ->
  ~ In (d - 1) l ->
  ~ In (d + Z.of_nat k) l ->
  exists l1 l2, l = l1 ++ days_from d k ++ l2
                /\ StronglySorted Z.lt l1
                /\ StronglySorted Z.lt l2
                /\ (forall y, In y l1 -> y < d - 1)
                /\ (forall y, In y l2 -> d + Z.of_nat k < y).
Proof.
  intros Hs Hrun Hbefore Hend. induction l as [|x r IH].
  - destruct (run_prefix k d [] Hs) as (l2 & E & Hl2); auto.
    { intros ? []. }
    exists [], l2. rewrite E. simpl.
    destruct (days_from d k); [|discriminate]. simpl in E. subst l2.
    repeat split; auto; try constructor; intros ? [].
  - inversion Hs as [|? ? Hs' Hall]; subst.
    pose proof Hall as Hall'. rewrite Forall_forall in Hall'.
    destruct (Z_lt_le_dec x d) as [Hlt|Hge].
    + destruct IH as (l1 & l2 & -> & H1 & H2 & H3 & H4); auto.
      * intros y Hy. destruct (Hrun y Hy) as [E|Hin]; [lia|exact Hin].
      * intros Hin. apply Hbefore. now right.
      * intros Hin. apply Hend. now right.
      * exists (x :: l1), l2. repeat split; auto.
        -- constructor; [exact H1|].
           apply Forall_forall. intros y Hy. apply Hall'.
           apply in_or_app. now left.
        -- intros y [<-|Hy]; [|auto].
           assert (x <> d - 1) by (intros ->; apply Hbefore; now left). lia.
    + destruct (run_prefix k d (x :: r) Hs) as (l2 & E & Hl2); auto.
      { intros y [<-|Hy]; [lia|]. specialize (Hall' y Hy). lia. }
      exists [], l2. simpl. repeat split; auto; try constructor.
      * rewrite E in Hs. clear - Hs.
        induction (days_from d k) as [|z zs IHz]; simpl in Hs; [exact Hs|].
        inversion Hs; auto.
      * intros ? [].
Qed.

End RankFacts.

(** ** The heatwave detector, CTE by CTE *)

Module FlagFacts.

Import Rel RelFacts Processing.

(** Every row of [noaa_heatwave_flags] is a row of [base], with the heatwave
    flag set exactly when the row has a partner among the heatwave days. *)
Lemma flags_In (t : list daily_row) (o : flag_row) :
  In o (build_noaa_heatwave_flags t) <->
  exists b, In b (base t)
    /\ f_station o = b_station b /\ f_day_utc o = b_day_utc b
    /\ f_daily_max_temp_C o = b_daily_max_temp_C b
    /\ f_avg_temp_C o = b_avg_temp_C b
    /\ f_is_hot_day o = b_is_hot_day b
    /\ let hg := hot_grouped (hot_days (base t)) in
       let hd := heatwave_days hg (heatwave_groups hg) in
       (f_is_heatwave_day o = 1 /\
        exists d, In d hd /\ b_station b = hd_station d
                  /\ Time.cast_date (b_day_utc b) = hd_day_date d)
       \/ (f_is_heatwave_day o = 0 /\
           forall d, In d hd ->
                     ~ (b_station b = hd_station d
                        /\ Time.cast_date (b_day_utc b) = hd_day_date d)).
Proof.
  unfold build_noaa_heatwave_flags. cbv zeta.
  rewrite order_by_In, in_map_iff. split.
  - intros ([b m] & <- & Hin). apply left_join_In in Hin.
    destruct Hin as [Hb Hm]. exists b. simpl. repeat (split; [auto|]).
    destruct m as [d|].
    + left. split; [reflexivity|]. exists d. destruct Hm as [Hd Hon].
      apply andb_true_iff in Hon. destruct Hon as [H1 H2].
      apply String.eqb_eq in H1. apply Z.eqb_eq in H2. auto.
    + right. split; [reflexivity|]. intros d Hd [H1 H2].
      specialize (Hm d Hd). rewrite H1, H2, String.eqb_refl, Z.eqb_refl in Hm.
      discriminate.
  - intros (b & Hb & H1 & H2 & H3 & H4 & H5 & H).
    destruct H as [[Hf (d & Hd & Hs & Hday)]|[Hf Hno]].
    + exists (b, Some d). split.
      * destruct o; simpl in *; subst; reflexivity.
      * apply left_join_In. split; [auto|]. split; [auto|].
        rewrite Hs, Hday, String.eqb_refl, Z.eqb_refl. reflexivity.
    + exists (b, None). split.
      * destruct o; simpl in *; subst; reflexivity.
      * apply left_join_In. split; [auto|]. intros d Hd.
        destruct (String.eqb (b_station b) (hd_station d)) eqn:E1; [|reflexivity].
        destruct (Time.cast_date (b_day_utc b) =? hd_day_date d) eqn:E2; [|reflexivity].
        apply String.eqb_eq in E1. apply Z.eqb_eq in E2.
        exfalso. apply (Hno d Hd). auto.
Qed.


(** The rows [ROW_NUMBER] gives one partition are that partition, sorted and
    numbered from 1. *)
Lemma row_number_partition {A K : Type} (keqb : K -> K -> bool)
      (key : A -> K) (leb : A -> A -> bool) (l : list A) (k : K) :
  (forall x y, keqb x y = true <-> x = y) ->
  filter (fun p => keqb (key (snd p)) k) (row_number keqb key leb l)
  = number_from 1 (order_by leb (filter (fun r => keqb (key r) k) l)).
Proof.
  intros Hspec. unfold row_number.
  set (F := fun k' => number_from 1 (order_by leb (filter (fun r => keqb (key r) k') l))).
  assert (HF : forall k' p, In p (F k') -> keqb (key (snd p)) k = keqb k' k).
  { intros k' p Hp. unfold F in Hp.
    apply (in_map snd) in Hp. rewrite RankFacts.number_from_snd in Hp.
    apply order_by_In, filter_In in Hp. destruct Hp as [_ Hp].
    apply Hspec in Hp. now rewrite Hp. }
  assert (Hrefl : keqb k k = true) by now apply Hspec.
  assert (Haux : forall ks, NoDup ks ->
            (In k ks -> filter (fun p => keqb (key (snd p)) k) (flat_map F ks) = F k)
            /\ (~ In k ks -> filter (fun p => keqb (key (snd p)) k) (flat_map F ks) = [])).
  { induction 1 as [|k' ks Hnotin Hnd IH]; [simpl; tauto|].
    simpl. rewrite filter_app. destruct IH as [IH1 IH2].
    destruct (keqb k' k) eqn:E.
    - apply Hspec in E. subst k'. split; [|tauto]. intros _.
      rewrite IH2 by assumption. rewrite app_nil_r.
      apply filter_all. intros p Hp. now rewrite (HF k p Hp).
    - assert (Hne : k' <> k) by (intros ->; congruence).
      rewrite (filter_none _ (F k')) by (intros p Hp; now rewrite (HF k' p Hp)).
      simpl. split; [intros [?|?]; [congruence|auto]|]. intros Hn. apply IH2. tauto. }
  destruct (Haux (distinct keqb (map key l)) (distinct_NoDup keqb Hspec _)) as [H1 H2].
  destruct (existsb (fun r => keqb (key r) k) l) eqn:E.
  - apply existsb_exists in E. destruct E as (r & Hr & Hk).
    apply H1. apply (distinct_In keqb Hspec). apply Hspec in Hk. subst k.
    now apply in_map.
  - rewrite H2.
    + rewrite (filter_none (fun r => keqb (key r) k) l); [reflexivity|].
      intros r Hr. destruct (keqb (key r) k) eqn:Ek; [|reflexivity].
      assert (existsb (fun r => keqb (key r) k) l = true)
        by (apply existsb_exists; eauto). congruence.
    + intros Hin. apply distinct_incl in Hin.
      apply in_map_iff in Hin. destruct Hin as (r & Hk & Hr).
      assert (existsb (fun r => keqb (key r) k) l = true).
      { apply existsb_exists. exists r. split; [auto|]. now apply Hspec. }
      congruence.
Qed.

Lemma string_eqb_spec (x y : string) : String.eqb x y = true <-> x = y.
Proof. apply String.eqb_eq. Qed.

(** The rows of [hot_grouped] of one station. *)
Lemma hot_grouped_station (t : list daily_row) (s : string) :
  filter (fun r => String.eqb (hg_station r) s) (hot_grouped (hot_days (base t)))
  = map (fun p => {| hg_station := b_station (snd p);
                     hg_day_date := b_day_date (snd p);
                     hg_rn := fst p;
                     hg_grp_id := b_day_date (snd p) - fst p |})
        (number_from 1 (Spec.hot_partition t s)).
Proof.
  unfold hot_grouped, hot_days. rewrite map_map, filter_map_swap. simpl.
  rewrite (row_number_partition String.eqb b_station _ _ s string_eqb_spec).
  apply map_ext. intros [i b]. simpl. unfold Time.epoch, Time.day_seconds.
  now rewrite Z.div_mul.
Qed.

Lemma hot_dates_In (t : list daily_row) (s : string) (x : Z) :
  In x (Spec.hot_dates t s) <-> Spec.hot_on t s x.
Proof.
  unfold Spec.hot_dates, Spec.hot_partition, Spec.hot_on, base.
  rewrite in_map_iff. split.
  - intros (b & Hx & Hb). apply order_by_In in Hb.
    apply filter_In in Hb. destruct Hb as [Hb Hs].
    apply filter_In in Hb. destruct Hb as [Hb Hhot].
    apply in_map_iff in Hb. destruct Hb as (r & <- & Hr). simpl in *.
    exists r. apply String.eqb_eq in Hs. repeat split; auto.
    destruct (ge_bool (d_daily_max_temp_C r) 32.22); [reflexivity|discriminate].
  - intros (r & Hr & Hs & Hx & Hhot).
    eexists. split; [|apply order_by_In, filter_In; split;
                      [apply filter_In; split; [apply in_map, Hr|]|]]; simpl.
    + exact Hx.
    + now rewrite Hhot.
    + subst s. apply String.eqb_refl.
Qed.

Lemma NoDup_map_filter {Row Key : Type} (key : Row -> Key)
      (keep : Row -> bool) (rows : list Row) (Hnd : NoDup (map key rows)) :
  NoDup (map key (filter keep rows)).
Proof.
  induction rows as [|x r IH]; simpl; [constructor|].
  inversion Hnd as [|? ? Hnotin Hrest]; subst.
  destruct (keep x); simpl; [|auto].
  constructor; [|auto]. intros Hin. apply Hnotin.
  apply in_map_iff in Hin. destruct Hin as (y & E & Hy).
  apply filter_In in Hy. apply in_map_iff. exists y. tauto.
Qed.

Lemma sorted_le_NoDup_lt (l : list Z) :
  StronglySorted Z.le l -> NoDup l -> StronglySorted Z.lt l.
Proof.
  induction 1 as [|x r Hs IH Hall]; intros Hnd; constructor.
  - apply IH. now inversion Hnd.
  - inversion Hnd; subst. rewrite Forall_forall in *.
    intros y Hy. specialize (Hall y Hy).
    assert (x <> y) by (intros ->; contradiction). lia.
Qed.

Lemma StronglySorted_map {A B : Type} (R : A -> A -> Prop) (R' : B -> B -> Prop)
      (f : A -> B) (l : list A) :
  (forall x y, R x y -> R' (f x) (f y)) ->
  StronglySorted R l -> StronglySorted R' (map f l).
Proof.
  intros HR. induction 1 as [|x r Hs IH Hall]; simpl; constructor; [auto|].
  rewrite Forall_forall in *. intros y Hy.
  apply in_map_iff in Hy. destruct Hy as (z & <- & Hz). auto.
Qed.

(** With one row per station and day, the hot dates of a station come in
    increasing order. *)
Lemma hot_dates_increasing (t : list daily_row) (s : string) :
  Spec.one_row_per_day t -> StronglySorted Z.lt (Spec.hot_dates t s).
Proof.
  intros Hone. apply sorted_le_NoDup_lt.
  - unfold Spec.hot_dates, Spec.hot_partition.
    apply (StronglySorted_map (fun x y => (b_day_date x <=? b_day_date y) = true)).
    + intros x y. apply Z.leb_le.
    + apply order_by_sorted.
      * intros x y.
        destruct (Z.le_ge_cases (b_day_date x) (b_day_date y)); [left|right];
          now apply Z.leb_le.
      * intros x y z H1 H2. apply Z.leb_le in H1, H2. apply Z.leb_le. lia.
  - unfold Spec.hot_dates, Spec.hot_partition.
    eapply Permutation_NoDup.
    { apply Permutation_map. symmetry. apply order_by_perm. }
    unfold Spec.one_row_per_day in Hone.
    assert (Hkeys : NoDup (map (fun b => (b_station b, b_day_date b)) (base t))).
    { unfold base. rewrite map_map. exact Hone. }
    apply (NoDup_map_filter _ (fun r => b_is_hot_day r =? 1)) in Hkeys.
    revert Hkeys. generalize (filter (fun r => b_is_hot_day r =? 1) (base t)).
    intros l. induction l as [|x r IH]; simpl; intros H; [constructor|].
    inversion H; subst. destruct (String.eqb (b_station x) s) eqn:E; [|auto].
    simpl. constructor; [|auto]. intros Hin. apply H2.
    apply in_map_iff in Hin. destruct Hin as (y & Ey & Hy).
    apply filter_In in Hy. destruct Hy as [Hy Hs].
    apply String.eqb_eq in E, Hs. apply in_map_iff. exists y.
    split; [|auto]. congruence.
Qed.

(** The size of a group of [hot_grouped], counted on the dates of its
    station. *)
Lemma group_size (t : list daily_row) (s : string) (g : Z) :
  List.length (filter (fun r => group_key_eqb (hg_station r, hg_grp_id r) (s, g))
                      (hot_grouped (hot_days (base t))))
  = List.length (filter (fun p => snd p - fst p =? g)
                        (number_from 1 (Spec.hot_dates t s))).
Proof.
  unfold group_key_eqb. simpl.
  rewrite <- (filter_filter (fun r => hg_grp_id r =? g)
                            (fun r => String.eqb (hg_station r) s)).
  rewrite hot_grouped_station. unfold Spec.hot_dates.
  rewrite RankFacts.number_from_map.
  rewrite !filter_map_swap, !length_map. reflexivity.
Qed.

(** A group is a heatwave group when it has a row and at least three. *)
Lemma heatwave_groups_In (hg : list hot_grouped_row) (g : heatwave_group_row) :
  In g (heatwave_groups hg) <->
  (exists r, In r hg /\ hg_station r = g_station g /\ hg_grp_id r = g_grp_id g)
  /\ 3 <= Z.of_nat (List.length
                      (filter (fun r => group_key_eqb (hg_station r, hg_grp_id r)
                                                      (g_station g, g_grp_id g)) hg)).
Proof.
  assert (Hspec : forall x y, group_key_eqb x y = true <-> x = y).
  { intros [a b] [c e]. unfold group_key_eqb. simpl.
    rewrite andb_true_iff, String.eqb_eq, Z.eqb_eq. split.
    - intros [-> ->]. reflexivity.
    - intros E. inversion E. auto. }
  unfold heatwave_groups, group_by. rewrite in_map_iff. split.
  - intros ([k c] & <- & Hin). apply filter_In in Hin. destruct Hin as [Hin Hc].
    apply in_map_iff in Hin. destruct Hin as (k' & E & Hk). inversion E; subst.
    apply distinct_incl, in_map_iff in Hk. destruct Hk as (r & <- & Hr).
    simpl in *. split; [eauto|]. now apply Z.leb_le.
  - intros [(r & Hr & Hs & Hg) Hc].
    exists ((g_station g, g_grp_id g),
            Z.of_nat (List.length
                        (filter (fun r => group_key_eqb (hg_station r, hg_grp_id r)
                                                        (g_station g, g_grp_id g)) hg))).
    split; [destruct g; reflexivity|].
    apply filter_In. split; [|now apply Z.leb_le].
    apply in_map_iff. exists (g_station g, g_grp_id g). split; [reflexivity|].
    apply (distinct_In group_key_eqb Hspec). apply in_map_iff.
    exists r. split; [congruence|auto].
Qed.

(** A station and date is among the heatwave days exactly when it is a hot
    day whose group has at least three rows. *)
Lemma heatwave_days_match (hg : list hot_grouped_row) (s : string) (x : Z) :
  (exists d, In d (heatwave_days hg (heatwave_groups hg))
             /\ s = hd_station d /\ x = hd_day_date d)
  <-> exists h, In h hg /\ hg_station h = s /\ hg_day_date h = x
                /\ 3 <= Z.of_nat (List.length
                                    (filter (fun r => group_key_eqb
                                                        (hg_station r, hg_grp_id r)
                                                        (s, hg_grp_id h)) hg)).
Proof.
  unfold heatwave_days, inner_join. split.
  - intros (d & Hd & -> & ->). apply in_map_iff in Hd.
    destruct Hd as ([h g] & <- & Hin). apply in_flat_map in Hin.
    destruct Hin as (h' & Hh & Hin). apply in_map_iff in Hin.
    destruct Hin as (g' & E & Hg). inversion E; subst. clear E.
    apply filter_In in Hg. destruct Hg as [Hg Hon].
    apply andb_true_iff in Hon. destruct Hon as [H1 H2].
    apply String.eqb_eq in H1. apply Z.eqb_eq in H2.
    apply heatwave_groups_In in Hg. destruct Hg as [_ Hc].
    exists h. simpl. repeat split; auto. now rewrite H1, H2.
  - intros (h & Hh & <- & <- & Hc).
    exists {| hd_station := hg_station h; hd_day_date := hg_day_date h |}.
    split; [|split; reflexivity].
    apply in_map_iff.
    exists (h, {| g_station := hg_station h; g_grp_id := hg_grp_id h |}).
    split; [reflexivity|]. apply in_flat_map. exists h. split; [exact Hh|].
    apply in_map_iff. eexists. split; [reflexivity|].
    apply filter_In. simpl. split.
    + apply heatwave_groups_In. simpl. split; [eauto|exact Hc].
    + now rewrite String.eqb_refl, Z.eqb_refl.
Qed.

(** The rows of [hot_grouped] on the days of a maximal run of [k] days: there
    is one for every day of the run, and the group of each has [k] rows. *)
Lemma run_group (t : list daily_row) (s : string) (d : Z) (k : nat) :
  Spec.one_row_per_day t ->
  Spec.maximal_run t s d (Z.of_nat k) ->
  forall x, d <= x < d + Z.of_nat k ->
  let hg := hot_grouped (hot_days (base t)) in
  (exists h, In h hg /\ hg_station h = s /\ hg_day_date h = x)
  /\ (forall h, In h hg -> hg_station h = s -> hg_day_date h = x ->
        List.length (filter (fun r => group_key_eqb (hg_station r, hg_grp_id r)
                                                    (s, hg_grp_id h)) hg) = k).
Proof.
  intros Hone (Hrun & Hbefore & Hafter) x Hx hg.
  pose proof (hot_dates_increasing t s Hone) as Hinc.
  destruct (RankFacts.run_split k d (Spec.hot_dates t s) Hinc)
    as (l1 & l2 & Hsplit & Hs1 & Hs2 & Hl1 & Hl2).
  { intros y Hy. apply hot_dates_In. auto. }
  { now rewrite hot_dates_In. }
  { now rewrite hot_dates_In. }
  set (g0 := d - (1 + Z.of_nat (List.length l1))).
  assert (Hnum : number_from 1 (Spec.hot_dates t s)
                 = number_from 1 l1
                   ++ number_from (1 + Z.of_nat (List.length l1)) (Spec.days_from d k)
                   ++ number_from (1 + Z.of_nat (List.length l1) + Z.of_nat k) l2).
  { rewrite Hsplit, !RankFacts.number_from_app, RankFacts.days_from_length.
    reflexivity. }
  assert (Hsnd : forall (l : list Z) i p, In p (number_from i l) -> In (snd p) l).
  { intros l i p Hp. apply (in_map snd) in Hp.
    now rewrite RankFacts.number_from_snd in Hp. }
  assert (Hgrp : forall p, In p (number_from 1 (Spec.hot_dates t s)) ->
                           d <= snd p < d + Z.of_nat k -> snd p - fst p = g0).
  { intros p Hp Hrange. rewrite Hnum in Hp.
    apply in_app_or in Hp. destruct Hp as [Hp|Hp].
    - apply Hsnd, Hl1 in Hp. lia.
    - apply in_app_or in Hp. destruct Hp as [Hp|Hp].
      + now apply RankFacts.grp_run in Hp.
      + apply Hsnd, Hl2 in Hp. lia. }
  assert (Hcount : List.length (filter (fun p => snd p - fst p =? g0)
                                       (number_from 1 (Spec.hot_dates t s))) = k).
  { rewrite Hnum, !filter_app, !length_app.
    rewrite (filter_none _ (number_from 1 l1)).
    2:{ intros p Hp. apply Z.eqb_neq.
        pose proof (RankFacts.grp_low (d - 1) l1 1 p Hs1 Hl1 Hp). unfold g0. lia. }
    rewrite (filter_all _ (number_from _ (Spec.days_from d k))).
    2:{ intros p Hp. apply Z.eqb_eq. now apply RankFacts.grp_run in Hp. }
    rewrite (filter_none _ (number_from _ l2)).
    2:{ intros p Hp. apply Z.eqb_neq.
        assert (g0 < snd p - fst p); [|lia].
        apply (RankFacts.grp_high g0 l2
                 (1 + Z.of_nat (List.length l1) + Z.of_nat k) p Hs2); [|exact Hp].
        intros y Hy. specialize (Hl2 y Hy). unfold g0. lia. }
    simpl. rewrite RankFacts.number_from_length, RankFacts.days_from_length. lia. }
  assert (Hrows : forall h, In h hg /\ hg_station h = s <->
            exists q, In q (number_from 1 (Spec.hot_partition t s))
                      /\ h = {| hg_station := b_station (snd q);
                                hg_day_date := b_day_date (snd q);
                                hg_rn := fst q;
                                hg_grp_id := b_day_date (snd q) - fst q |}).
  { intros h. rewrite <- String.eqb_eq.
    rewrite <- (filter_In (fun r => String.eqb (hg_station r) s)).
    unfold hg. rewrite hot_grouped_station, in_map_iff.
    split; intros (q & H1 & H2); exists q; auto. }
  assert (Hdates : forall q, In q (number_from 1 (Spec.hot_partition t s)) ->
            In (fst q, b_day_date (snd q)) (number_from 1 (Spec.hot_dates t s))).
  { intros q Hq. unfold Spec.hot_dates. rewrite RankFacts.number_from_map.
    apply in_map_iff. exists q. auto. }
  split.
  - assert (Hin : In x (Spec.hot_dates t s)) by (apply hot_dates_In; auto).
    unfold Spec.hot_dates in Hin. apply in_map_iff in Hin.
    destruct Hin as (b & Hb & Hin).
    rewrite <- (RankFacts.number_from_snd (Spec.hot_partition t s) 1) in Hin.
    apply in_map_iff in Hin. destruct Hin as (q & Hq & Hin).
    destruct (proj2 (Hrows _) (ex_intro _ q (conj Hin eq_refl))) as [H1 H2].
    eexists. split; [exact H1|]. split; [exact H2|]. simpl. congruence.
  - intros h Hh Hs Hday.
    destruct (proj1 (Hrows h) (conj Hh Hs)) as (q & Hq & ->). simpl in *.
    pose proof (Hgrp _ (Hdates q Hq)) as Hg0. simpl in Hg0.
    rewrite Hg0 by lia.
    unfold hg. rewrite group_size. exact Hcount.
Qed.

(** The heatwave flag on the days of a maximal run of [k] days: the rows of
    these days exist, and all of them carry 1 when [k] is at least 3 and 0
    otherwise. *)
Lemma run_flag (t : list daily_row) (s : string) (d : Z) (k : nat) :
  Spec.one_row_per_day t ->
  Spec.maximal_run t s d (Z.of_nat k) ->
  forall x, d <= x < d + Z.of_nat k ->
  (exists o, In o (build_noaa_heatwave_flags t)
             /\ f_station o = s /\ Time.cast_date (f_day_utc o) = x)
  /\ (forall o, In o (build_noaa_heatwave_flags t) ->
                f_station o = s -> Time.cast_date (f_day_utc o) = x ->
                f_is_heatwave_day o = if 3 <=? Z.of_nat k then 1 else 0).
Proof.
  intros Hone Hmax x Hx.
  destruct (run_group t s d k Hone Hmax x Hx) as [(h & Hh & Hhs & Hhx) Hsize].
  cbv zeta in Hsize.
  assert (Hmatch :
    (exists dd, In dd (heatwave_days (hot_grouped (hot_days (base t)))
                         (heatwave_groups (hot_grouped (hot_days (base t)))))
                /\ s = hd_station dd /\ x = hd_day_date dd)
    <-> 3 <= Z.of_nat k).
  { rewrite heatwave_days_match. split.
    - intros (h' & Hh' & Hs' & Hx' & Hc). now rewrite (Hsize h' Hh' Hs' Hx') in Hc.
    - intros Hk. exists h. repeat split; auto. now rewrite (Hsize h Hh Hhs Hhx). }
  split.
  - destruct Hmax as (Hrun & _ & _).
    destruct (Hrun x Hx) as (r & Hr & Hrs & Hrx & _).
    assert (Hb : In {| b_station := d_station r;
                       b_day_utc := d_day_utc r;
                       b_daily_max_temp_C := d_daily_max_temp_C r;
                       b_avg_temp_C := d_avg_temp_C r;
                       b_is_hot_day :=
                         if ge_bool (d_daily_max_temp_C r) 32.22 then 1 else 0;
                       b_day_date := Time.cast_date (d_day_utc r) |} (base t)).
    { unfold base. apply in_map_iff. exists r. auto. }
    destruct (Z_le_gt_dec 3 (Z.of_nat k)) as [Hk|Hk].
    + exists {| f_station := d_station r;
                f_day_utc := d_day_utc r;
                f_daily_max_temp_C := d_daily_max_temp_C r;
                f_avg_temp_C := d_avg_temp_C r;
                f_is_hot_day :=
                  if ge_bool (d_daily_max_temp_C r) 32.22 then 1 else 0;
                f_is_heatwave_day := 1 |}.
      split; [|auto]. apply flags_In. eexists. split; [exact Hb|].
      simpl. repeat (split; [reflexivity|]). left. split; [reflexivity|].
      rewrite Hrs, Hrx. now apply Hmatch.
    + exists {| f_station := d_station r;
                f_day_utc := d_day_utc r;
                f_daily_max_temp_C := d_daily_max_temp_C r;
                f_avg_temp_C := d_avg_temp_C r;
                f_is_hot_day :=
                  if ge_bool (d_daily_max_temp_C r) 32.22 then 1 else 0;
                f_is_heatwave_day := 0 |}.
      split; [|auto]. apply flags_In. eexists. split; [exact Hb|].
      simpl. repeat (split; [reflexivity|]). right. split; [reflexivity|].
      intros dd Hdd [H1 H2]. rewrite Hrs, Hrx in *.
      assert (3 <= Z.of_nat k) by (apply Hmatch; eauto). lia.
  - intros o Ho Hos Hox. apply flags_In in Ho.
    destruct Ho as (b & Hb & H1 & H2 & _ & _ & _ & H).
    cbv zeta in H. rewrite <- H1, <- H2, Hos, Hox in H.
    destruct (3 <=? Z.of_nat k) eqn:E.
    + apply Z.leb_le in E. destruct H as [[Hf _]|[_ Hno]]; [exact Hf|].
      apply Hmatch in E. destruct E as (dd & Hdd & Hs' & Hx').
      exfalso. apply (Hno dd Hdd). auto.
    + apply Z.leb_gt in E. destruct H as [[_ Hex]|[Hf _]]; [|exact Hf].
      apply Hmatch in Hex. lia.
Qed.

Lemma NoDup_map_inj {Row Key : Type} (key : Row -> Key) (rows : list Row)
      (x y : Row) :
  NoDup (map key rows) -> In x rows -> In y rows -> key x = key y -> x = y.
Proof.
  induction rows as [|z r IH]; simpl; intros Hnd Hx Hy E; [tauto|].
  inversion Hnd as [|? ? Hnotin Hrest]; subst.
  destruct Hx as [->|Hx], Hy as [->|Hy]; auto.
  - exfalso. apply Hnotin. rewrite E. now apply in_map.
  - exfalso. apply Hnotin. rewrite <- E. now apply in_map.
Qed.

(** Every row of [hot_grouped] comes from a hot row of [base]. *)
Lemma hot_grouped_from_hot (t : list daily_row) (h : hot_grouped_row) :
  In h (hot_grouped (hot_days (base t))) ->
  exists b, In b (base t) /\ b_is_hot_day b = 1
            /\ b_station b = hg_station h /\ b_day_date b = hg_day_date h.
Proof.
  intros Hh.
  assert (Hin : In h (filter (fun r => String.eqb (hg_station r) (hg_station h))
                             (hot_grouped (hot_days (base t)))))
    by (apply filter_In; split; [exact Hh|apply String.eqb_refl]).
  rewrite hot_grouped_station in Hin. apply in_map_iff in Hin.
  destruct Hin as (q & E & Hq).
  apply (in_map snd) in Hq. rewrite RankFacts.number_from_snd in Hq.
  unfold Spec.hot_partition in Hq. apply order_by_In in Hq.
  apply filter_In in Hq. destruct Hq as [Hq _].
  apply filter_In in Hq. destruct Hq as [Hq Hhot].
  exists (snd q). apply Z.eqb_eq in Hhot. subst h. simpl. auto.
Qed.

(** With one row per station and day, a day that is not hot is never a
    heatwave day. *)
Lemma not_hot_not_heatwave (t : list daily_row) (o : flag_row) :
  Spec.one_row_per_day t ->
  In o (build_noaa_heatwave_flags t) ->
  f_is_hot_day o = 0 -> f_is_heatwave_day o = 0.
Proof.
  intros Hone Ho Hcold. apply flags_In in Ho.
  destruct Ho as (b & Hb & _ & _ & _ & _ & Hhot & H). cbv zeta in H.
  destruct H as [[_ Hex]|[Hf _]]; [|exact Hf]. exfalso.
  apply heatwave_days_match in Hex. destruct Hex as (h & Hh & Hs & Hd & _).
  apply hot_grouped_from_hot in Hh. destruct Hh as (b' & Hb' & Hhot' & Hs' & Hd').
  assert (Hkeys : NoDup (map (fun b => (b_station b, b_day_date b)) (base t))).
  { unfold base. rewrite map_map. exact Hone. }
  assert (E : b' = b).
  { apply (NoDup_map_inj _ _ _ _ Hkeys Hb' Hb). f_equal; [congruence|].
    rewrite Hd', Hd. unfold base in Hb. apply in_map_iff in Hb.
    destruct Hb as (r & <- & _). reflexivity. }
  subst b'. rewrite Hhot in Hcold. lia.
Qed.

End FlagFacts.

(** ** Properties of the heatwave detector *)

(** C1: with threshold 32.22, station X and the daily maxima
    30, 33, 34, 35, 31, 20 on the six days from 2024-07-01 on, the rows come
    out in day order with hot-day flags 0, 1, 1, 1, 0, 0 and heatwave flags
    0, 1, 1, 1, 0, 0 (1 is true), whatever the daily means are. *)
Theorem heatwave_scenario_three_day_run (a1 a2 a3 a4 a5 a6 : option Q) :
  let t := Scenario.six_days (Some 30%Q) (Some 33%Q) (Some 34%Q)
                             (Some 35%Q) (Some 31%Q) (Some 20%Q)
                             a1 a2 a3 a4 a5 a6 in
  let out := Processing.build_noaa_heatwave_flags t in
  Time.days_from_civil 2024 7 1 = 19905
  /\ map (fun r => Time.cast_date (Processing.f_day_utc r)) out
     = [19905; 19906; 19907; 19908; 19909; 19910]
  /\ map Processing.f_is_hot_day out = [0; 1; 1; 1; 0; 0]
  /\ map Processing.f_is_heatwave_day out = [0; 1; 1; 1; 0; 0].
Proof.
  cbv zeta. repeat split; vm_compute; reflexivity.
Qed.

(** C3: a day whose daily maximum is null is never flagged hot, and it breaks
    a run as a day that is not hot does: in a daily table with one row per
    station and day it is never a heatwave day, and with the maxima
    30, 33, null, 35, 31, 20 on the six days from 2024-07-01 on, the only hot
    days are 07-02 and 07-04, which are not consecutive, and no day is a
    heatwave day. *)
Theorem null_day_is_not_hot_and_breaks_run :
  (forall t o, In o (Processing.build_noaa_heatwave_flags t) ->
               Processing.f_daily_max_temp_C o = None ->
               Processing.f_is_hot_day o = 0
               /\ (Spec.one_row_per_day t -> Processing.f_is_heatwave_day o = 0))
  /\ (forall a1 a2 a3 a4 a5 a6,
        let t := Scenario.six_days (Some 30%Q) (Some 33%Q) None
                                   (Some 35%Q) (Some 31%Q) (Some 20%Q)
                                   a1 a2 a3 a4 a5 a6 in
        let out := Processing.build_noaa_heatwave_flags t in
        map (fun r => Time.cast_date (Processing.f_day_utc r)) out
        = [19905; 19906; 19907; 19908; 19909; 19910]
        /\ map Processing.f_daily_max_temp_C out
           = [Some 30%Q; Some 33%Q; None; Some 35%Q; Some 31%Q; Some 20%Q]
        /\ map Processing.f_is_hot_day out = [0; 1; 0; 1; 0; 0]
        /\ map Processing.f_is_heatwave_day out = [0; 0; 0; 0; 0; 0]).
Proof.
  split.
  - intros t o Hin Hnull.
    assert (Hcold : Processing.f_is_hot_day o = 0).
    { apply FlagFacts.flags_In in Hin.
      destruct Hin as (b & Hb & _ & _ & Hmax & _ & Hhot & _).
      unfold Processing.base in Hb. apply in_map_iff in Hb.
      destruct Hb as (r & <- & _). simpl in *.
      rewrite Hhot. rewrite Hnull in Hmax. rewrite <- Hmax. reflexivity. }
    split; [exact Hcold|]. intros Hone.
    now apply (FlagFacts.not_hot_not_heatwave t o Hone Hin).
  - intros. cbv zeta. repeat split; vm_compute; reflexivity.
Qed.

(** The daily table [build_noaa_daily] builds has one row per station and
    calendar day, as the detector expects. *)
Lemma build_noaa_daily_one_row_per_day (hourly : list Noaa.avg_row) :
  Spec.one_row_per_day (Processing.build_noaa_daily hourly).
Proof.
  assert (Hspec : forall x y, Noaa.station_time_eqb x y = true <-> x = y).
  { intros [a b] [c e]. unfold Noaa.station_time_eqb. simpl.
    rewrite andb_true_iff, String.eqb_eq, Z.eqb_eq. split.
    - intros [-> ->]. reflexivity.
    - intros E. inversion E. auto. }
  unfold Spec.one_row_per_day, Processing.build_noaa_daily.
  eapply Permutation_NoDup.
  { apply Permutation_map. symmetry. apply RelFacts.order_by_perm. }
  unfold Rel.group_by. rewrite map_map. simpl.
  apply NoDup_map_NoDup_ForallPairs; [|now apply RelFacts.distinct_NoDup].
  intros [s1 d1] [s2 d2] H1 H2 E.
  apply RelFacts.distinct_incl, in_map_iff in H1, H2.
  destruct H1 as (r1 & E1 & _). destruct H2 as (r2 & E2 & _).
  inversion E1; subst. inversion E2; subst. simpl in E. inversion E as [[Es Ed]].
  unfold Time.cast_date, Time.date_trunc_day, Time.day_seconds in *.
  rewrite !Z.div_mul in Ed by lia. now rewrite Ed.
Qed.

(** C2: in a daily table with one row per station and day, as
    [build_noaa_daily] builds it, on every day of a maximal run of [k]
    consecutive hot calendar days of a station the heatwave flag is 0 when [k]
    is 2, and 1 when [k] is 3 and when [k] is 5: no day of such a run is left
    out. *)
Theorem heatwave_run_boundaries (t : list Processing.daily_row) (s : string)
        (d k x : Z) :
  Spec.one_row_per_day t ->
  Spec.maximal_run t s d k ->
  d <= x < d + k ->
  (k = 2 -> Spec.flagged t s x 0)
  /\ (k = 3 -> Spec.flagged t s x 1)
  /\ (k = 5 -> Spec.flagged t s x 1).
Proof.
  intros Hone Hmax Hx.
  assert (Hk : k = Z.of_nat (Z.to_nat k)) by lia.
  rewrite Hk in Hmax, Hx.
  pose proof (FlagFacts.run_flag t s d (Z.to_nat k) Hone Hmax x Hx) as H.
  rewrite <- Hk in H. unfold Spec.flagged.
  split; [|split]; intros ->; exact H.
Qed.

(** The three days 07-02 to 07-04 of the scenario of C1 are such a run. *)
Lemma heatwave_run_boundaries_witness :
  let t := Scenario.six_days (Some 30%Q) (Some 33%Q) (Some 34%Q)
                             (Some 35%Q) (Some 31%Q) (Some 20%Q)
                             None None None None None None in
  Spec.one_row_per_day t
  /\ Spec.maximal_run t "X" 19906 3
  /\ Spec.flagged t "X" 19907 1.
Proof.
  cbv zeta.
  assert (Hone : Spec.one_row_per_day
                   (Scenario.six_days (Some 30%Q) (Some 33%Q) (Some 34%Q)
                                      (Some 35%Q) (Some 31%Q) (Some 20%Q)
                                      None None None None None None)).
  { unfold Spec.one_row_per_day. vm_compute.
    repeat constructor; simpl; intuition discriminate. }
  assert (Hmax : Spec.maximal_run
                   (Scenario.six_days (Some 30%Q) (Some 33%Q) (Some 34%Q)
                                      (Some 35%Q) (Some 31%Q) (Some 20%Q)
                                      None None None None None None)
                   "X" 19906 3).
  { repeat split.
    - intros y Hy.
      assert (Hc : y = 19906 \/ y = 19907 \/ y = 19908) by lia.
      destruct Hc as [-> | [-> | ->]].
      + exists (Scenario.july 2 (Some 33%Q) None).
        repeat split; [simpl; tauto].
      + exists (Scenario.july 3 (Some 34%Q) None).
        repeat split; [simpl; tauto].
      + exists (Scenario.july 4 (Some 35%Q) None).
        repeat split; [simpl; tauto].
    - intros (r & Hr & _ & Hd & Hh). simpl in Hr.
      repeat (destruct Hr as [<-|Hr]; [vm_compute in Hd, Hh; discriminate|]).
      exact Hr.
    - intros (r & Hr & _ & Hd & Hh). simpl in Hr.
      repeat (destruct Hr as [<-|Hr]; [vm_compute in Hd, Hh; discriminate|]).
      exact Hr. }
  split; [exact Hone|]. split; [exact Hmax|].
  assert (Hx : 19906 <= 19907 < 19906 + 3) by lia.
  exact (proj1 (proj2 (heatwave_run_boundaries _ "X" 19906 3 19907 Hone Hmax Hx))
               eq_refl).
Defined.

(** ** The region joiner *)

Module JoinFacts.

Import Rel RelFacts Processing.

(** A row of [heat_load_daily] is an input row with its region and, when the
    join finds one, the load of a daily load row of the join region and the
    same day; without a partner the load is null. *)
Lemma heat_load_daily_In (n : list flag_row) (e : list daily_load_row)
      (o : heat_load_row) :
  In o (heat_load_daily n e) ->
  In (Spec.temperature_side o) n
  /\ region o = output_region (station o)
  /\ ((exists l, In l e /\ e_region l = join_region (station o)
                 /\ e_day_utc l = day_utc o
                 /\ daily_total_mwh o = e_daily_total_mwh l
                 /\ daily_peak_mwh o = e_daily_peak_mwh l)
      \/ ((forall l, In l e -> ~ (e_region l = join_region (station o)
                                  /\ e_day_utc l = day_utc o))
          /\ daily_total_mwh o = None /\ daily_peak_mwh o = None)).
Proof.
  unfold heat_load_daily. rewrite order_by_In, in_map_iff.
  intros ([r m] & <- & Hin). apply left_join_In in Hin.
  destruct Hin as [Hr Hm]. unfold Spec.temperature_side. simpl.
  split; [destruct r; exact Hr|]. split; [reflexivity|].
  destruct m as [l|].
  - left. exists l. destruct Hm as [Hl Hon]. unfold join_on in Hon.
    apply andb_true_iff in Hon. destruct Hon as [H1 H2].
    apply String.eqb_eq in H1. apply Z.eqb_eq in H2. auto.
  - right. split; [|auto]. intros l Hl [H1 H2].
    specialize (Hm l Hl). unfold join_on in Hm.
    rewrite H1, H2, String.eqb_refl, Z.eqb_refl in Hm. discriminate.
Qed.

(** Every input row reaches the output. *)
Lemma heat_load_daily_keeps (n : list flag_row) (e : list daily_load_row)
      (r : flag_row) :
  In r n -> exists o, In o (heat_load_daily n e) /\ Spec.temperature_side o = r.
Proof.
  intros Hr. unfold heat_load_daily.
  assert (Hm : exists m, In (r, m) (left_join join_on n e)).
  { destruct (filter (join_on r) e) as [|l ls] eqn:E.
    - exists None. apply left_join_In. split; [exact Hr|].
      intros b Hb. destruct (join_on r b) eqn:Eb; [|reflexivity].
      assert (Hin : In b (filter (join_on r) e)) by (apply filter_In; auto).
      rewrite E in Hin. destruct Hin.
    - exists (Some l). apply left_join_In. split; [exact Hr|].
      apply filter_In. rewrite E. now left. }
  destruct Hm as (m & Hm).
  eexists. split.
  - apply order_by_In, in_map_iff. exists (r, m). split; [reflexivity|exact Hm].
  - unfold Spec.temperature_side. simpl. destruct r; reflexivity.
Qed.

Lemma filter_unique_key {A K : Type} (f : A -> K) (p : A -> bool) (c : K)
      (l : list A) :
  NoDup (map f l) ->
  (forall x, p x = true -> f x = c) ->
  (List.length (filter p l) <= 1)%nat.
Proof.
  intros Hnd Hp. induction l as [|x r IH]; simpl; [lia|].
  inversion Hnd; subst. destruct (p x) eqn:E; [|auto].
  rewrite (filter_none p r); [simpl; lia|].
  intros y Hy. destruct (p y) eqn:Ey; [|reflexivity].
  exfalso. apply H1. apply in_map_iff. exists y.
  split; [|exact Hy]. rewrite (Hp x E), (Hp y Ey). reflexivity.
Qed.

(** The daily load table has one row per region and day. *)
Lemma build_eia_daily_load_keys (hourly : list Eia.load_row) :
  NoDup (map (fun r => (e_region r, e_day_utc r)) (build_eia_daily_load hourly)).
Proof.
  assert (Hspec : forall x y, Noaa.station_time_eqb x y = true <-> x = y).
  { intros [a b] [c e]. unfold Noaa.station_time_eqb. simpl.
    rewrite andb_true_iff, String.eqb_eq, Z.eqb_eq. split.
    - intros [-> ->]. reflexivity.
    - intros E. inversion E. auto. }
  unfold build_eia_daily_load.
  eapply Permutation_NoDup.
  { apply Permutation_map. symmetry. apply order_by_perm. }
  unfold group_by. rewrite map_map. simpl.
  rewrite <- (map_ext (fun k => k)) by (intros [a b]; reflexivity).
  rewrite map_id. now apply distinct_NoDup.
Qed.

(** Against a load table with one row per region and day, the join keeps the
    temperature table row by row, up to the final ordering. *)
Lemma heat_load_daily_perm (n : list flag_row) (e : list daily_load_row) :
  NoDup (map (fun r => (e_region r, e_day_utc r)) e) ->
  Permutation (map Spec.temperature_side (heat_load_daily n e)) n.
Proof.
  intros Hnd. unfold heat_load_daily.
  rewrite (Permutation_map _ (order_by_perm _ _)), map_map.
  rewrite (map_ext _ fst).
  - rewrite left_join_unique; [reflexivity|].
    intros a _.
    apply (filter_unique_key (fun r => (e_region r, e_day_utc r)) _
                             (join_region (f_station a), f_day_utc a)); [exact Hnd|].
    intros x Hx. unfold join_on in Hx. apply andb_true_iff in Hx.
    destruct Hx as [H1 H2]. apply String.eqb_eq in H1. apply Z.eqb_eq in H2.
    congruence.
  - intros [r m]. unfold Spec.temperature_side. simpl. destruct r; reflexivity.
Qed.

End JoinFacts.

(** ** Properties of the region joiner *)

(** C4: joined with the daily load table that [build_eia_daily_load] builds,
    the output has exactly the rows of the flag table, one output row per
    input row, so both have the same number of rows; an output row without a
    daily load record of its join region and day has null load fields. *)
Theorem heat_load_daily_one_row_per_input (n : list Processing.flag_row)
        (hourly : list Eia.load_row) :
  let e := Processing.build_eia_daily_load hourly in
  let out := Processing.heat_load_daily n e in
  List.length out = List.length n
  /\ Permutation (map Spec.temperature_side out) n
  /\ (forall o, In o out ->
        (forall l, In l e ->
                   ~ (Processing.e_region l
                      = Processing.join_region (Processing.station o)
                      /\ Processing.e_day_utc l = Processing.day_utc o)) ->
        Processing.daily_total_mwh o = None
        /\ Processing.daily_peak_mwh o = None).
Proof.
  cbv zeta.
  pose proof (JoinFacts.heat_load_daily_perm n _
                (JoinFacts.build_eia_daily_load_keys hourly)) as Hperm.
  split; [|split].
  - rewrite <- (Permutation_length Hperm). now rewrite length_map.
  - exact Hperm.
  - intros o Ho Hno. apply JoinFacts.heat_load_daily_In in Ho.
    destruct Ho as (_ & _ & [(l & Hl & H1 & H2 & _)|(_ & H)]); [|exact H].
    exfalso. apply (Hno l Hl). auto.
Qed.

(** C6, as the code has it: the join raises nothing; every input row reaches
    the output, and the row of a station other than IAD and BOS comes out
    with a null region. *)
Theorem heat_load_daily_keeps_unmapped_station (n : list Processing.flag_row)
        (e : list Processing.daily_load_row) (r : Processing.flag_row) :
  In r n ->
  Spec.unmapped (Processing.f_station r) ->
  exists o, In o (Processing.heat_load_daily n e)
            /\ Spec.temperature_side o = r
            /\ Processing.region o = None.
Proof.
  intros Hr [H1 H2].
  destruct (JoinFacts.heat_load_daily_keeps n e r Hr) as (o & Ho & Ht).
  exists o. split; [exact Ho|]. split; [exact Ht|].
  apply JoinFacts.heat_load_daily_In in Ho. destruct Ho as (_ & -> & _).
  assert (Hs : Processing.station o = Processing.f_station r) by now rewrite <- Ht.
  rewrite Hs. unfold Processing.output_region.
  destruct (String.eqb_spec (Processing.f_station r) "IAD"); [contradiction|].
  destruct (String.eqb_spec (Processing.f_station r) "BOS"); [contradiction|].
  reflexivity.
Qed.

Lemma heat_load_daily_keeps_unmapped_station_witness :
  Spec.unmapped "ATL"
  /\ exists o, In o (Processing.heat_load_daily [Scenario.flag "ATL" 1] [])
               /\ Spec.temperature_side o = Scenario.flag "ATL" 1
               /\ Processing.region o = None.
Proof.
  assert (Hu : Spec.unmapped "ATL") by (split; discriminate).
  split; [exact Hu|].
  exact (heat_load_daily_keeps_unmapped_station
           [Scenario.flag "ATL" 1] [] (Scenario.flag "ATL" 1)
           (or_introl eq_refl) Hu).
Defined.

(** C6 as stated fails: a flag table with a row of station ATL, which the
    output [CASE] does not map, gives an output table, and the ATL row is in
    it. *)
Lemma unmapped_station_is_not_rejected :
  Spec.unmapped "ATL"
  /\ Processing.heat_load_daily [Scenario.flag "ATL" 1]
                                [Scenario.load "ISNE" 1 370 150]
     = [ {| Processing.station := "ATL";
            Processing.region := None;
            Processing.day_utc := Time.midnight 2024 7 1;
            Processing.daily_max_temp_C := Some 33%Q;
            Processing.avg_temp_C := Some 28%Q;
            Processing.is_hot_day := 1;
            Processing.is_heatwave_day := 0;
            Processing.daily_total_mwh := Some 370%Q;
            Processing.daily_peak_mwh := Some 150%Q |} ].
Proof.
  split; [split; discriminate|]. vm_compute. reflexivity.
Qed.

(** C10: an output row whose station is neither IAD nor BOS has a null
    region, and its load fields are those of a daily load row of region ISNE
    on the same day whenever there is one (null otherwise). *)
Theorem other_station_joins_ISNE (n : list Processing.flag_row)
        (e : list Processing.daily_load_row) (o : Processing.heat_load_row) :
  In o (Processing.heat_load_daily n e) ->
  Processing.station o <> "IAD"%string ->
  Processing.station o <> "BOS"%string ->
  Processing.region o = None
  /\ ((exists l, In l e /\ Processing.e_region l = "ISNE"%string
                 /\ Processing.e_day_utc l = Processing.day_utc o
                 /\ Processing.daily_total_mwh o = Processing.e_daily_total_mwh l
                 /\ Processing.daily_peak_mwh o = Processing.e_daily_peak_mwh l)
      \/ ((forall l, In l e -> ~ (Processing.e_region l = "ISNE"%string
                                  /\ Processing.e_day_utc l = Processing.day_utc o))
          /\ Processing.daily_total_mwh o = None
          /\ Processing.daily_peak_mwh o = None)).
Proof.
  intros Ho H1 H2. apply JoinFacts.heat_load_daily_In in Ho.
  destruct Ho as (_ & Hreg & Hload).
  assert (Hj : Processing.join_region (Processing.station o) = "ISNE"%string).
  { unfold Processing.join_region.
    destruct (String.eqb_spec (Processing.station o) "IAD"); [contradiction|].
    reflexivity. }
  rewrite Hj in Hload. split; [|exact Hload].
  rewrite Hreg. unfold Processing.output_region.
  destruct (String.eqb_spec (Processing.station o) "IAD"); [contradiction|].
  destruct (String.eqb_spec (Processing.station o) "BOS"); [contradiction|].
  reflexivity.
Qed.

Lemma other_station_joins_ISNE_witness :
  let o := {| Processing.station := "ATL";
              Processing.region := None;
              Processing.day_utc := Time.midnight 2024 7 1;
              Processing.daily_max_temp_C := Some 33%Q;
              Processing.avg_temp_C := Some 28%Q;
              Processing.is_hot_day := 1;
              Processing.is_heatwave_day := 0;
              Processing.daily_total_mwh := Some 370%Q;
              Processing.daily_peak_mwh := Some 150%Q |} in
  let e := [Scenario.load "PJM" 1 900 90; Scenario.load "ISNE" 1 370 150] in
  In o (Processing.heat_load_daily [Scenario.flag "ATL" 1] e)
  /\ Processing.region o = None
  /\ ((exists l, In l e /\ Processing.e_region l = "ISNE"%string
                 /\ Processing.e_day_utc l = Processing.day_utc o
                 /\ Processing.daily_total_mwh o = Processing.e_daily_total_mwh l
                 /\ Processing.daily_peak_mwh o = Processing.e_daily_peak_mwh l)
      \/ ((forall l, In l e -> ~ (Processing.e_region l = "ISNE"%string
                                  /\ Processing.e_day_utc l = Processing.day_utc o))
          /\ Processing.daily_total_mwh o = None
          /\ Processing.daily_peak_mwh o = None)).
Proof.
  cbv zeta.
  assert (Hin : In {| Processing.station := "ATL";
                      Processing.region := None;
                      Processing.day_utc := Time.midnight 2024 7 1;
                      Processing.daily_max_temp_C := Some 33%Q;
                      Processing.avg_temp_C := Some 28%Q;
                      Processing.is_hot_day := 1;
                      Processing.is_heatwave_day := 0;
                      Processing.daily_total_mwh := Some 370%Q;
                      Processing.daily_peak_mwh := Some 150%Q |}
                   (Processing.heat_load_daily
                      [Scenario.flag "ATL" 1]
                      [Scenario.load "PJM" 1 900 90; Scenario.load "ISNE" 1 370 150])).
  { vm_compute. left. reflexivity. }
  split; [exact Hin|].
  apply (other_station_joins_ISNE _ _ _ Hin); discriminate.
Defined.

(** ** Properties of the daily aggregators *)

Module AggFacts.

Import Rel RelFacts Processing.

Lemma Qmax_le_plus (x y : Q) : (0 <= x -> 0 <= y -> Qmax x y <= x + y)%Q.
Proof.
  intros Hx Hy. apply Q.max_lub; lra.
Qed.

(** The maximum of non-negative values does not exceed their sum. *)
Lemma q_max_le_sum (vs : list Q) (x : Q) :
  (0 <= x)%Q -> (forall v, In v vs -> (0 <= v)%Q) ->
  (q_max x vs <= x + q_sum vs)%Q.
Proof.
  unfold q_max. revert x. induction vs as [|v r IH]; intros x Hx Hall; simpl.
  - lra.
  - assert (Hv : (0 <= v)%Q) by (apply Hall; now left).
    assert (Hm : (0 <= Qmax x v)%Q).
    { apply Qle_trans with x; [exact Hx|apply Q.le_max_l]. }
    specialize (IH (Qmax x v) Hm (fun w Hw => Hall w (or_intror Hw))).
    pose proof (Qmax_le_plus x v Hx Hv). lra.
Qed.

Lemma load_row_eqb_refl (a : Eia.load_row) : load_row_eqb a a = true.
Proof.
  unfold load_row_eqb. rewrite String.eqb_refl, Z.eqb_refl. simpl.
  destruct (Eia.load_mwh a); simpl; [|reflexivity].
  apply Qeq_bool_iff. reflexivity.
Qed.

Lemma load_row_eqb_trans (a b c : Eia.load_row) :
  load_row_eqb a b = true -> load_row_eqb b c = true -> load_row_eqb a c = true.
Proof.
  unfold load_row_eqb. rewrite !andb_true_iff, !String.eqb_eq, !Z.eqb_eq.
  intros [[-> ->] H1] [[-> ->] H2]. repeat split.
  destruct (Eia.load_mwh a), (Eia.load_mwh b), (Eia.load_mwh c);
    simpl in *; try discriminate; try reflexivity.
  apply Qeq_bool_iff in H1, H2. apply Qeq_bool_iff. now rewrite H1.
Qed.

(** A row of the daily load table aggregates the distinct hourly rows of its
    region and day. *)
Lemma build_eia_daily_load_In (hourly : list Eia.load_row) (row : daily_load_row) :
  In row (build_eia_daily_load hourly) ->
  let rows := Spec.load_readings (e_region row) (e_day_utc row)
                                 (hourly_unique hourly) in
  e_daily_total_mwh row = SUM (map Eia.load_mwh rows)
  /\ e_daily_peak_mwh row = MAX (map Eia.load_mwh rows).
Proof.
  unfold build_eia_daily_load, group_by. rewrite order_by_In, in_map_iff.
  intros ([rg day] & <- & _). simpl. unfold Spec.load_readings.
  unfold Noaa.station_time_eqb. simpl. auto.
Qed.

End AggFacts.

(** C5 as stated fails: an hourly table whose only row of station X has a
    null temperature gives one daily row for X, while X has no calendar day
    with a non-null hourly reading. *)
Lemma all_null_day_still_gives_a_row :
  let hourly := [ {| Noaa.a_station := "X";
                     Noaa.a_hour_utc := Time.midnight 2024 7 1;
                     Noaa.a_temp_C := None |} ] in
  List.length (Spec.daily_of "X" (Processing.build_noaa_daily hourly)) = 1%nat
  /\ List.length (Spec.non_null_reading_days "X" hourly) = 0%nat
  /\ Processing.build_noaa_daily hourly
     = [ {| Processing.d_station := "X";
            Processing.d_day_utc := Time.midnight 2024 7 1;
            Processing.d_daily_max_temp_C := None;
            Processing.d_avg_temp_C := None |} ].
Proof.
  cbv zeta. repeat split; vm_compute; reflexivity.
Qed.

(** C5, as the code has it: for every station, the number of rows of the
    daily temperature table equals the number of distinct calendar days on
    which the station has an hourly row, with or without a temperature. *)
Theorem daily_rows_count (hourly : list Noaa.avg_row) (s : string) :
  List.length (Spec.daily_of s (Processing.build_noaa_daily hourly))
  = List.length (Spec.reading_days s hourly).
Proof.
  unfold Spec.daily_of, Processing.build_noaa_daily, Spec.reading_days.
  rewrite (RelFacts.filter_length_perm _ _ _ (RelFacts.order_by_perm _ _)).
  unfold Rel.group_by. rewrite filter_map_swap, length_map. simpl.
  rewrite RelFacts.distinct_filter.
  2:{ intros [a b] [c e] H. unfold Noaa.station_time_eqb in H. simpl in *.
      apply andb_true_iff in H. destruct H as [H _].
      apply String.eqb_eq in H. now subst. }
  rewrite filter_map_swap. simpl.
  rewrite <- (length_map snd).
  rewrite (RelFacts.distinct_map _ Z.eqb).
  - now rewrite map_map.
  - intros [a b] [c e] Ha Hc. unfold Noaa.station_time_eqb. simpl.
    apply in_map_iff in Ha, Hc.
    destruct Ha as (r1 & E1 & H1). destruct Hc as (r2 & E2 & H2).
    apply filter_In in H1, H2. destruct H1 as [_ H1]. destruct H2 as [_ H2].
    apply String.eqb_eq in H1, H2. inversion E1; inversion E2; subst.
    rewrite H2, String.eqb_refl. reflexivity.
Qed.

(** C7 as stated fails: a [TMP] field with the value -9999 is cleaned to
    -999.9, not to null. *)
Lemma minus_9999_is_not_a_sentinel :
  Noaa.load_noaa_hourly
    [ {| Noaa.STATION := "72509014739";
         Noaa.DATE := Time.midnight 2024 7 1;
         Noaa.TMP := Some "-9999,9"%string |} ]
  = [ {| Noaa.t_station := "BOS";
         Noaa.t_ts_utc := Time.midnight 2024 7 1;
         Noaa.t_temp_C := Some (-999.9)%Q |} ].
Proof. vm_compute. reflexivity. Qed.

(** C7, as the code has it: a raw sample whose [TMP] value is +9999, with
    any quality code, gets a null cleaned temperature. *)
Theorem plus_9999_is_missing (raw : list Noaa.raw_row) (r : Noaa.raw_row)
        (tmp : string) :
  In r raw ->
  Noaa.TMP r = Some tmp ->
  Noaa.split_part_1 ","%char tmp = "+9999"%string ->
  In {| Noaa.t_station := Noaa.station_label (Noaa.STATION r);
        Noaa.t_ts_utc := Noaa.DATE r;
        Noaa.t_temp_C := None |} (Noaa.load_noaa_hourly raw)
  /\ Noaa.clean_temp_C (Noaa.TMP r) = None.
Proof.
  intros Hin Htmp Hval.
  assert (Hclean : Noaa.clean_temp_C (Noaa.TMP r) = None).
  { rewrite Htmp. unfold Noaa.clean_temp_C. cbv zeta. now rewrite Hval. }
  split; [|exact Hclean].
  unfold Noaa.load_noaa_hourly. apply in_map_iff. exists r.
  now rewrite Hclean.
Qed.

Lemma plus_9999_is_missing_witness :
  let r := {| Noaa.STATION := "72509014739";
              Noaa.DATE := Time.midnight 2024 7 1;
              Noaa.TMP := Some "+9999,9"%string |} in
  In {| Noaa.t_station := Noaa.station_label (Noaa.STATION r);
        Noaa.t_ts_utc := Noaa.DATE r;
        Noaa.t_temp_C := None |} (Noaa.load_noaa_hourly [r])
  /\ Noaa.clean_temp_C (Noaa.TMP r) = None.
Proof.
  cbv zeta.
  exact (plus_9999_is_missing
           [ {| Noaa.STATION := "72509014739";
                Noaa.DATE := Time.midnight 2024 7 1;
                Noaa.TMP := Some "+9999,9"%string |} ]
           {| Noaa.STATION := "72509014739";
              Noaa.DATE := Time.midnight 2024 7 1;
              Noaa.TMP := Some "+9999,9"%string |}
           "+9999,9" (or_introl eq_refl) eq_refl eq_refl).
Defined.

(** On a table no ingestion writes, with two rows of one region and hour
    that differ in their load, both rows pass [SELECT DISTINCT] and the daily
    total is their sum. *)
Theorem differing_duplicates_are_summed :
  Processing.hourly_unique [Scenario.hourly "PJM" 0 100; Scenario.hourly "PJM" 0 150]
  = [Scenario.hourly "PJM" 0 100; Scenario.hourly "PJM" 0 150]
  /\ Processing.build_eia_daily_load
       [Scenario.hourly "PJM" 0 100; Scenario.hourly "PJM" 0 150]
     = [ {| Processing.e_region := "PJM";
            Processing.e_day_utc := Time.midnight 2024 7 1;
            Processing.e_daily_total_mwh := Some 250%Q;
            Processing.e_daily_peak_mwh := Some 150%Q |} ].
Proof. split; vm_compute; reflexivity. Qed.

(** C9 as stated fails: with the hourly loads 100 and -50 on one region-day,
    a positive reading exists, yet the peak 100 exceeds the total 50. *)
Lemma peak_above_total_with_negative_load :
  Processing.build_eia_daily_load
    [Scenario.hourly "PJM" 0 100; Scenario.hourly "PJM" 1 (-50)]
  = [ {| Processing.e_region := "PJM";
         Processing.e_day_utc := Time.midnight 2024 7 1;
         Processing.e_daily_total_mwh := Some 50%Q;
         Processing.e_daily_peak_mwh := Some 100%Q |} ]
  /\ (0 < 100)%Q /\ ~ (100 <= 50)%Q.
Proof.
  split; [vm_compute; reflexivity|].
  split; [reflexivity|]. intros H. now apply H.
Qed.

(** C9, as the code has it: for a row of the daily load table, when no
    hourly reading of its region and day is negative and at least one is not
    null, the peak and the total are not null and the peak is at most the
    total. *)
Theorem daily_peak_le_total (hourly : list Eia.load_row)
        (row : Processing.daily_load_row) :
  In row (Processing.build_eia_daily_load hourly) ->
  (forall h v,
      In h (Spec.load_readings (Processing.e_region row)
                               (Processing.e_day_utc row) hourly) ->
      Eia.load_mwh h = Some v -> (0 <= v)%Q) ->
  (exists h v,
      In h (Spec.load_readings (Processing.e_region row)
                               (Processing.e_day_utc row) hourly)
      /\ Eia.load_mwh h = Some v) ->
  exists p t, Processing.e_daily_peak_mwh row = Some p
              /\ Processing.e_daily_total_mwh row = Some t
              /\ (p <= t)%Q.
Proof.
  intros Hrow Hpos (h0 & v0 & Hh0 & Hv0).
  destruct (AggFacts.build_eia_daily_load_In hourly row Hrow) as [Ht Hp].
  rewrite Ht, Hp. clear Ht Hp.
  set (rows := Spec.load_readings (Processing.e_region row)
                                  (Processing.e_day_utc row)
                                  (Processing.hourly_unique hourly)).
  assert (Hall : forall v, In v (Rel.non_null (map Eia.load_mwh rows)) -> (0 <= v)%Q).
  { intros v Hv. apply RelFacts.non_null_In, in_map_iff in Hv.
    destruct Hv as (h & Hl & Hh). unfold rows, Spec.load_readings in Hh.
    apply filter_In in Hh. destruct Hh as [Hh Hk].
    apply RelFacts.distinct_incl in Hh.
    apply (Hpos h v); [|exact Hl].
    unfold Spec.load_readings. apply filter_In. auto. }
  assert (Hne : exists v, In v (Rel.non_null (map Eia.load_mwh rows))).
  { unfold Spec.load_readings in Hh0. apply filter_In in Hh0.
    destruct Hh0 as [Hh0 Hk].
    destruct (RelFacts.distinct_repr Processing.load_row_eqb hourly h0
                AggFacts.load_row_eqb_refl AggFacts.load_row_eqb_trans Hh0)
      as (h' & Hh' & E).
    unfold Processing.load_row_eqb in E. rewrite !andb_true_iff in E.
    destruct E as [[E1 E2] E3].
    apply String.eqb_eq in E1. apply Z.eqb_eq in E2.
    rewrite Hv0 in E3. destruct (Eia.load_mwh h') as [v'|] eqn:Ev'; [|discriminate].
    exists v'. apply RelFacts.non_null_In, in_map_iff. exists h'.
    split; [exact Ev'|]. unfold rows, Spec.load_readings.
    apply filter_In. split; [exact Hh'|]. now rewrite E1, E2. }
  unfold Rel.SUM, Rel.MAX.
  destruct (Rel.non_null (map Eia.load_mwh rows)) as [|v vs].
  - destruct Hne as (v & []).
  - eexists. eexists. split; [reflexivity|]. split; [reflexivity|].
    change (Rel.q_sum (v :: vs)) with (v + Rel.q_sum vs)%Q.
    apply AggFacts.q_max_le_sum.
    + apply Hall. now left.
    + intros w Hw. apply Hall. now right.
Qed.

Lemma daily_peak_le_total_witness :
  let hourly := [Scenario.hourly "PJM" 0 100; Scenario.hourly "PJM" 1 150;
                 Scenario.hourly "PJM" 2 120] in
  let row := {| Processing.e_region := "PJM";
                Processing.e_day_utc := Time.midnight 2024 7 1;
                Processing.e_daily_total_mwh := Some 370%Q;
                Processing.e_daily_peak_mwh := Some 150%Q |} in
  In row (Processing.build_eia_daily_load hourly)
  /\ exists p t, Processing.e_daily_peak_mwh row = Some p
                 /\ Processing.e_daily_total_mwh row = Some t
                 /\ (p <= t)%Q.
Proof.
  cbv zeta.
  assert (Hin : In {| Processing.e_region := "PJM";
                      Processing.e_day_utc := Time.midnight 2024 7 1;
                      Processing.e_daily_total_mwh := Some 370%Q;
                      Processing.e_daily_peak_mwh := Some 150%Q |}
                   (Processing.build_eia_daily_load
                      [Scenario.hourly "PJM" 0 100; Scenario.hourly "PJM" 1 150;
                       Scenario.hourly "PJM" 2 120])).
  { vm_compute. left. reflexivity. }
  split; [exact Hin|].
  apply (daily_peak_le_total _ _ Hin).
  - intros h v Hh Hv. vm_compute in Hh.
    destruct Hh as [<-|[<-|[<-|[]]]]; inversion Hv; subst; discriminate.
  - exists (Scenario.hourly "PJM" 0 100), 100%Q.
    split; [vm_compute; left; reflexivity|reflexivity].
Defined.

(** ** More on the heatwave detector *)

Module DetectorFacts.

Import Rel RelFacts Processing.

(** From its head on, an increasing list of days begins with a run of
    consecutive days that the rest stays clear of. *)
Lemma run_from_head (l : list Z) (a : Z) :
  StronglySorted Z.lt (a :: l) ->
  exists k l2, a :: l = Spec.days_from a (S k) ++ l2
               /\ forall y, In y l2 -> a + Z.of_nat (S k) < y.
Proof.
  revert a. induction l as [|b r IH]; intros a Hs.
  - exists O, []. split; [reflexivity|]. intros ? [].
  - inversion Hs as [|? ? Hs' Hall]; subst.
    pose proof Hall as Hall'. rewrite Forall_forall in Hall'.
    assert (Hab : a < b) by (apply Hall'; now left).
    destruct (Z.eq_dec b (a + 1)) as [->|Hne].
    + destruct (IH (a + 1) Hs') as (k & l2 & E & Hl2).
      exists (S k), l2. split.
      * rewrite E. reflexivity.
      * intros y Hy. specialize (Hl2 y Hy). lia.
    + exists O, (b :: r). split; [reflexivity|].
      intros y [<-|Hy]; [simpl; lia|].
      inversion Hs' as [|? ? _ Hbr]; subst. rewrite Forall_forall in Hbr.
      specialize (Hbr y Hy). simpl. lia.
Qed.

(** Every day of an increasing list of days lies in a maximal run of the
    list. *)
Lemma run_around (l : list Z) (x : Z) :
  StronglySorted Z.lt l -> In x l ->
  exists d k l1 l2,
    l = l1 ++ Spec.days_from d k ++ l2
    /\ d <= x < d + Z.of_nat k
    /\ (forall y, In y l1 -> y < d - 1)
    /\ (forall y, In y l2 -> d + Z.of_nat k < y).
Proof.
  induction l as [|a r IH]; intros Hs Hx; [destruct Hx|].
  inversion Hs as [|? ? Hs' Hall]; subst.
  pose proof Hall as Hall'. rewrite Forall_forall in Hall'.
  destruct (Z.eq_dec a x) as [->|Hne].
  - destruct (run_from_head r x Hs) as (k & l2 & E & Hl2).
    exists x, (S k), [], l2. repeat split; auto; try lia. intros ? [].
  - destruct Hx as [Hx|Hx]; [contradiction|].
    destruct (IH Hs' Hx) as (d & k & l1 & l2 & E & Hr & Hl1 & Hl2).
    destruct l1 as [|b l1].
    + simpl in E. destruct k as [|k]; [simpl in Hr; lia|].
      assert (Had : a < d) by (apply Hall'; rewrite E; now left).
      destruct (Z.eq_dec a (d - 1)) as [->|Hgap].
      * exists (d - 1), (S (S k)), [], l2. repeat split.
        -- rewrite E. simpl app.
           change (Spec.days_from (d - 1) (S (S k)))
             with ((d - 1) :: Spec.days_from (d - 1 + 1) (S k)).
           now replace (d - 1 + 1) with d by lia.
        -- lia.
        -- lia.
        -- intros ? [].
        -- intros y Hy. specialize (Hl2 y Hy). lia.
      * exists d, (S k), [a], l2. repeat split; auto; try lia.
        -- now rewrite E.
        -- intros y [<-|[]]. lia.
    + exists d, k, (a :: b :: l1), l2. repeat split; auto; try lia.
      * now rewrite E.
      * intros y [<-|Hy]; [|auto].
        assert (a < b) by (apply Hall'; rewrite E; now left).
        specialize (Hl1 b (or_introl eq_refl)). lia.
Qed.

(** A hot day of a station lies in a maximal run of its hot days. *)
Lemma hot_day_in_run (t : list daily_row) (s : string) (x : Z) :
  Spec.one_row_per_day t -> Spec.hot_on t s x ->
  exists d k, Spec.maximal_run t s d (Z.of_nat k) /\ d <= x < d + Z.of_nat k.
Proof.
  intros Hone Hhot. apply FlagFacts.hot_dates_In in Hhot.
  pose proof (FlagFacts.hot_dates_increasing t s Hone) as Hinc.
  destruct (run_around _ x Hinc Hhot) as (d & k & l1 & l2 & E & Hr & Hl1 & Hl2).
  exists d, k. split; [|exact Hr].
  assert (Hmem : forall y, Spec.hot_on t s y <->
                           In y l1 \/ d <= y < d + Z.of_nat k \/ In y l2).
  { intros y. rewrite <- FlagFacts.hot_dates_In, E, !in_app_iff.
    now rewrite RankFacts.days_from_In. }
  repeat split.
  - intros y Hy. apply Hmem. auto.
  - rewrite Hmem. intros [H|[H|H]]; [apply Hl1 in H|..|apply Hl2 in H]; lia.
  - rewrite Hmem. intros [H|[H|H]]; [apply Hl1 in H|..|apply Hl2 in H]; lia.
Qed.

(** A row of the flag table is hot exactly when its station has a hot day on
    its date, provided the daily table has one row per station and day. *)
Lemma flag_hot_on (t : list daily_row) (o : flag_row) :
  Spec.one_row_per_day t -> In o (build_noaa_heatwave_flags t) ->
  f_is_hot_day o = 1 ->
  Spec.hot_on t (f_station o) (Time.cast_date (f_day_utc o)).
Proof.
  intros Hone Ho Hhot. apply FlagFacts.flags_In in Ho.
  destruct Ho as (b & Hb & Hs & Hd & _ & _ & Hh & _).
  unfold base in Hb. apply in_map_iff in Hb. destruct Hb as (r & <- & Hr).
  simpl in *. exists r. rewrite Hs, Hd. repeat split; auto.
  rewrite Hh in Hhot.
  destruct (ge_bool (d_daily_max_temp_C r) 32.22); [reflexivity|discriminate].
Qed.

Lemma flag_hot_bit (t : list daily_row) (o : flag_row) :
  In o (build_noaa_heatwave_flags t) -> f_is_hot_day o = 0 \/ f_is_hot_day o = 1.
Proof.
  intros Ho. apply FlagFacts.flags_In in Ho.
  destruct Ho as (b & Hb & _ & _ & _ & _ & Hh & _).
  unfold base in Hb. apply in_map_iff in Hb. destruct Hb as (r & <- & Hr).
  simpl in Hh. rewrite Hh.
  destruct (ge_bool (d_daily_max_temp_C r) 32.22); auto.
Qed.

Lemma flag_heatwave_bit (t : list daily_row) (o : flag_row) :
  In o (build_noaa_heatwave_flags t) ->
  f_is_heatwave_day o = 0 \/ f_is_heatwave_day o = 1.
Proof.
  intros Ho. apply FlagFacts.flags_In in Ho.
  destruct Ho as (b & _ & _ & _ & _ & _ & _ & H). cbv zeta in H.
  destruct H as [[H _]|[H _]]; auto.
Qed.

End DetectorFacts.

(** X1: with one row per station and day, a row of the flag table is a
    heatwave day exactly when its date lies in a maximal run of at least
    three consecutive hot days of its station. *)
Theorem heatwave_flag_characterisation (t : list Processing.daily_row)
        (o : Processing.flag_row) :
  Spec.one_row_per_day t ->
  In o (Processing.build_noaa_heatwave_flags t) ->
  Processing.f_is_heatwave_day o = 1
  <-> Notions.in_heatwave t (Processing.f_station o)
                          (Time.cast_date (Processing.f_day_utc o)).
Proof.
  intros Hone Ho. split.
  - intros Hflag.
    assert (Hhot : Processing.f_is_hot_day o = 1).
    { destruct (DetectorFacts.flag_hot_bit t o Ho) as [H|H]; [|exact H].
      pose proof (FlagFacts.not_hot_not_heatwave t o Hone Ho H). lia. }
    pose proof (DetectorFacts.flag_hot_on t o Hone Ho Hhot) as Hon.
    destruct (DetectorFacts.hot_day_in_run t _ _ Hone Hon) as (d & k & Hmax & Hr).
    destruct (FlagFacts.run_flag t _ d k Hone Hmax _ Hr) as [_ Hall].
    specialize (Hall o Ho eq_refl eq_refl). rewrite Hflag in Hall.
    exists d, (Z.of_nat k). split; [|auto].
    destruct (3 <=? Z.of_nat k) eqn:E; [now apply Z.leb_le|discriminate].
  - intros (d & k & Hk & Hmax & Hr).
    assert (Ek : k = Z.of_nat (Z.to_nat k)) by lia.
    rewrite Ek in Hmax, Hr.
    destruct (FlagFacts.run_flag t _ d _ Hone Hmax _ Hr) as [_ Hall].
    rewrite (Hall o Ho eq_refl eq_refl).
    rewrite <- Ek. destruct (3 <=? k) eqn:E; [reflexivity|].
    apply Z.leb_gt in E. lia.
Qed.

Lemma heatwave_flag_characterisation_witness :
  let t := Scenario.six_days (Some 30%Q) (Some 33%Q) (Some 34%Q)
                             (Some 35%Q) (Some 31%Q) (Some 20%Q)
                             None None None None None None in
  let o := {| Processing.f_station := "X";
              Processing.f_day_utc := Time.midnight 2024 7 3;
              Processing.f_daily_max_temp_C := Some 34%Q;
              Processing.f_avg_temp_C := None;
              Processing.f_is_hot_day := 1;
              Processing.f_is_heatwave_day := 1 |} in
  Spec.one_row_per_day t
  /\ In o (Processing.build_noaa_heatwave_flags t)
  /\ (Processing.f_is_heatwave_day o = 1
      <-> Notions.in_heatwave t (Processing.f_station o)
                              (Time.cast_date (Processing.f_day_utc o))).
Proof.
  cbv zeta.
  assert (Hone : Spec.one_row_per_day
                   (Scenario.six_days (Some 30%Q) (Some 33%Q) (Some 34%Q)
                                      (Some 35%Q) (Some 31%Q) (Some 20%Q)
                                      None None None None None None)).
  { unfold Spec.one_row_per_day. vm_compute.
    repeat constructor; simpl; intuition discriminate. }
  assert (Hin : In {| Processing.f_station := "X";
                      Processing.f_day_utc := Time.midnight 2024 7 3;
                      Processing.f_daily_max_temp_C := Some 34%Q;
                      Processing.f_avg_temp_C := None;
                      Processing.f_is_hot_day := 1;
                      Processing.f_is_heatwave_day := 1 |}
                   (Processing.build_noaa_heatwave_flags
                      (Scenario.six_days (Some 30%Q) (Some 33%Q) (Some 34%Q)
                                         (Some 35%Q) (Some 31%Q) (Some 20%Q)
                                         None None None None None None))).
  { vm_compute. right. right. left. reflexivity. }
  split; [exact Hone|]. split; [exact Hin|].
  exact (heatwave_flag_characterisation _ _ Hone Hin).
Defined.

(** X2: with one row per station and day, a heatwave day is a hot day: its
    daily maximum is not null and reaches the threshold 32.22. *)
Theorem heatwave_day_is_hot (t : list Processing.daily_row)
        (o : Processing.flag_row) :
  Spec.one_row_per_day t ->
  In o (Processing.build_noaa_heatwave_flags t) ->
  Processing.f_is_heatwave_day o = 1 ->
  Processing.f_is_hot_day o = 1
  /\ exists v, Processing.f_daily_max_temp_C o = Some v /\ (32.22 <= v)%Q.
Proof.
  intros Hone Ho Hflag.
  assert (Hhot : Processing.f_is_hot_day o = 1).
  { destruct (DetectorFacts.flag_hot_bit t o Ho) as [H|H]; [|exact H].
    pose proof (FlagFacts.not_hot_not_heatwave t o Hone Ho H). lia. }
  split; [exact Hhot|].
  apply FlagFacts.flags_In in Ho.
  destruct Ho as (b & Hb & _ & _ & Hmax & _ & Hh & _).
  unfold Processing.base in Hb. apply in_map_iff in Hb.
  destruct Hb as (r & <- & _). simpl in *. rewrite Hh in Hhot. rewrite Hmax.
  destruct (Processing.d_daily_max_temp_C r) as [v|]; simpl in Hhot;
    [|discriminate].
  exists v. split; [reflexivity|]. apply Qle_bool_iff.
  destruct (Qle_bool 32.22 v); [reflexivity|discriminate].
Qed.

Lemma heatwave_day_is_hot_witness :
  let t := Scenario.six_days (Some 30%Q) (Some 33%Q) (Some 34%Q)
                             (Some 35%Q) (Some 31%Q) (Some 20%Q)
                             None None None None None None in
  let o := {| Processing.f_station := "X";
              Processing.f_day_utc := Time.midnight 2024 7 4;
              Processing.f_daily_max_temp_C := Some 35%Q;
              Processing.f_avg_temp_C := None;
              Processing.f_is_hot_day := 1;
              Processing.f_is_heatwave_day := 1 |} in
  Spec.one_row_per_day t
  /\ In o (Processing.build_noaa_heatwave_flags t)
  /\ Processing.f_is_hot_day o = 1
  /\ exists v, Processing.f_daily_max_temp_C o = Some v /\ (32.22 <= v)%Q.
Proof.
  cbv zeta.
  assert (Hone : Spec.one_row_per_day
                   (Scenario.six_days (Some 30%Q) (Some 33%Q) (Some 34%Q)
                                      (Some 35%Q) (Some 31%Q) (Some 20%Q)
                                      None None None None None None)).
  { unfold Spec.one_row_per_day. vm_compute.
    repeat constructor; simpl; intuition discriminate. }
  assert (Hin : In {| Processing.f_station := "X";
                      Processing.f_day_utc := Time.midnight 2024 7 4;
                      Processing.f_daily_max_temp_C := Some 35%Q;
                      Processing.f_avg_temp_C := None;
                      Processing.f_is_hot_day := 1;
                      Processing.f_is_heatwave_day := 1 |}
                   (Processing.build_noaa_heatwave_flags
                      (Scenario.six_days (Some 30%Q) (Some 33%Q) (Some 34%Q)
                                         (Some 35%Q) (Some 31%Q) (Some 20%Q)
                                         None None None None None None))).
  { vm_compute. do 3 right. left. reflexivity. }
  split; [exact Hone|]. split; [exact Hin|].
  exact (heatwave_day_is_hot _ _ Hone Hin eq_refl).
Defined.

Module DetectorRows.

Import Rel RelFacts Processing.

Lemma sorted_lt_NoDup (l : list Z) : StronglySorted Z.lt l -> NoDup l.
Proof.
  induction 1 as [|x r Hs IH Hall]; constructor; [|exact IH].
  rewrite Forall_forall in Hall. intros Hin. specialize (Hall x Hin). lia.
Qed.

(** A filter over a [flat_map] whose pieces have at most one row. *)
Lemma flat_map_filter_le {A B : Type} (F : A -> list B) (P : B -> bool)
      (Q : A -> bool) (l : list A) :
  (forall a, (List.length (F a) <= 1)%nat) ->
  (forall a y, In y (F a) -> P y = true -> Q a = true) ->
  (List.length (filter P (flat_map F l)) <= List.length (filter Q l))%nat.
Proof.
  intros Hone HPQ. induction l as [|a r IH]; simpl; [lia|].
  rewrite filter_app, length_app. destruct (Q a) eqn:E; simpl.
  - pose proof (filter_length_le P (F a)). specialize (Hone a). lia.
  - rewrite (filter_none P (F a)); [simpl; exact IH|].
    intros y Hy. destruct (P y) eqn:Ey; [|reflexivity].
    rewrite (HPQ a y Hy Ey) in E. discriminate.
Qed.

(** The heatwave groups are distinct. *)
Lemma heatwave_groups_keys (hg : list hot_grouped_row) :
  NoDup (map (fun g => (g_station g, g_grp_id g)) (heatwave_groups hg)).
Proof.
  assert (Hspec : forall x y, group_key_eqb x y = true <-> x = y).
  { intros [a b] [c e]. unfold group_key_eqb. simpl.
    rewrite andb_true_iff, String.eqb_eq, Z.eqb_eq. split.
    - intros [-> ->]. reflexivity.
    - intros E. inversion E. auto. }
  unfold heatwave_groups, group_by. rewrite map_map. simpl.
  rewrite (map_ext _ fst) by (intros [[a b] c]; reflexivity).
  apply FlagFacts.NoDup_map_filter. rewrite map_map. simpl. rewrite map_id.
  now apply distinct_NoDup.
Qed.

(** With one row per station and day, a station and date occurs at most once
    among the heatwave days. *)
Lemma heatwave_days_partner (t : list daily_row) (b : base_row) :
  Spec.one_row_per_day t ->
  let hg := hot_grouped (hot_days (base t)) in
  (List.length
     (filter (fun hd => String.eqb (b_station b) (hd_station hd)
                        && (Time.cast_date (b_day_utc b) =? hd_day_date hd)%Z)
             (heatwave_days hg (heatwave_groups hg))) <= 1)%nat.
Proof.
  intros Hone hg. unfold heatwave_days, inner_join.
  rewrite filter_map_swap, length_map.
  eapply Nat.le_trans.
  { apply (flat_map_filter_le _ _
             (fun h => String.eqb (hg_station h) (b_station b)
                       && (hg_day_date h =? Time.cast_date (b_day_utc b)))).
    - intros h. rewrite length_map.
      apply (JoinFacts.filter_unique_key
               (fun g => (g_station g, g_grp_id g)) _
               (hg_station h, hg_grp_id h)); [apply heatwave_groups_keys|].
      intros g Hg. apply andb_true_iff in Hg. destruct Hg as [H1 H2].
      apply String.eqb_eq in H1. apply Z.eqb_eq in H2. congruence.
    - intros h y Hy Hp. apply in_map_iff in Hy. destruct Hy as (g & <- & _).
      simpl in Hp. now rewrite String.eqb_sym, Z.eqb_sym. }
  rewrite <- (filter_filter (fun h => hg_day_date h =? Time.cast_date (b_day_utc b))
                            (fun h => String.eqb (hg_station h) (b_station b))).
  unfold hg. rewrite FlagFacts.hot_grouped_station.
  apply (JoinFacts.filter_unique_key hg_day_date _ (Time.cast_date (b_day_utc b))).
  - rewrite map_map. simpl.
    rewrite <- (map_map snd b_day_date), RankFacts.number_from_snd.
    apply sorted_lt_NoDup. now apply FlagFacts.hot_dates_increasing.
  - intros h Hh. now apply Z.eqb_eq.
Qed.

Lemma daily_of_base (t : list daily_row) :
  map (fun b => {| d_station := b_station b;
                   d_day_utc := b_day_utc b;
                   d_daily_max_temp_C := b_daily_max_temp_C b;
                   d_avg_temp_C := b_avg_temp_C b |}) (base t) = t.
Proof.
  unfold base. rewrite map_map. simpl.
  rewrite (map_ext _ (fun r => r)) by (intros []; reflexivity).
  apply map_id.
Qed.

(** The rows of [base] of the rows of one station. *)
Lemma base_station (t : list daily_row) (s : string) :
  base (Spec.daily_of s t)
  = filter (fun b => String.eqb (b_station b) s) (base t).
Proof.
  unfold base, Spec.daily_of. now rewrite filter_map_swap.
Qed.

Lemma hot_partition_station (t : list daily_row) (s : string) :
  Spec.hot_partition (Spec.daily_of s t) s = Spec.hot_partition t s.
Proof.
  unfold Spec.hot_partition. rewrite base_station. f_equal.
  rewrite (filter_comm (fun r => b_is_hot_day r =? 1)
                       (fun r => String.eqb (b_station r) s)).
  rewrite (filter_filter (fun r => String.eqb (b_station r) s)
                         (fun r => String.eqb (b_station r) s)).
  apply filter_ext. intros r. apply andb_diag.
Qed.

(** Whether a station and date has a partner among the heatwave days is
    decided by the rows of [hot_grouped] of that station. *)
Lemma partner_by_station (t : list daily_row) (s : string) (x : Z) :
  let hg := hot_grouped (hot_days (base t)) in
  let part := filter (fun r => String.eqb (hg_station r) s) hg in
  (exists d, In d (heatwave_days hg (heatwave_groups hg))
             /\ s = hd_station d /\ x = hd_day_date d)
  <-> exists h, In h part /\ hg_day_date h = x
                /\ 3 <= Z.of_nat (List.length
                                    (filter (fun r => hg_grp_id r =? hg_grp_id h)
                                            part)).
Proof.
  intros hg part. rewrite FlagFacts.heatwave_days_match.
  assert (Hcount : forall g,
             filter (fun r => group_key_eqb (hg_station r, hg_grp_id r) (s, g)) hg
             = filter (fun r => hg_grp_id r =? g) part).
  { intros g. unfold part. rewrite filter_filter. apply filter_ext.
    intros r. reflexivity. }
  split.
  - intros (h & Hh & Hs & Hx & Hc). exists h. rewrite <- Hcount.
    repeat split; auto. apply filter_In. split; [exact Hh|].
    now apply String.eqb_eq.
  - intros (h & Hh & Hx & Hc). apply filter_In in Hh. destruct Hh as [Hh Hs].
    apply String.eqb_eq in Hs. exists h. rewrite Hcount. auto.
Qed.

Lemma partner_station (t : list daily_row) (s : string) (x : Z) :
  (exists d, In d (heatwave_days (hot_grouped (hot_days (base (Spec.daily_of s t))))
                     (heatwave_groups
                        (hot_grouped (hot_days (base (Spec.daily_of s t))))))
             /\ s = hd_station d /\ x = hd_day_date d)
  <-> (exists d, In d (heatwave_days (hot_grouped (hot_days (base t)))
                         (heatwave_groups (hot_grouped (hot_days (base t)))))
                 /\ s = hd_station d /\ x = hd_day_date d).
Proof.
  rewrite (partner_by_station (Spec.daily_of s t) s x).
  rewrite (partner_by_station t s x). cbv zeta.
  now rewrite !FlagFacts.hot_grouped_station, hot_partition_station.
Qed.

(** With one row per station and day, the left join of the detector keeps
    the daily table row by row. *)
Lemma flags_perm (t : list daily_row) :
  Spec.one_row_per_day t ->
  Permutation (map Notions.daily_side (build_noaa_heatwave_flags t)) t.
Proof.
  intros Hone. unfold build_noaa_heatwave_flags. cbv zeta.
  rewrite (Permutation_map _ (order_by_perm _ _)), map_map.
  unfold Notions.daily_side. simpl.
  rewrite <- (map_map fst (fun b => {| d_station := b_station b;
                                       d_day_utc := b_day_utc b;
                                       d_daily_max_temp_C := b_daily_max_temp_C b;
                                       d_avg_temp_C := b_avg_temp_C b |})).
  rewrite left_join_unique.
  - now rewrite daily_of_base.
  - intros b _. now apply heatwave_days_partner.
Qed.

End DetectorRows.

(** X3: with one row per station and day, the flag table has exactly the rows
    of the daily table, each once and with its temperatures unchanged: the
    detector adds the two flags and neither drops nor repeats a row. *)
Theorem flags_keep_the_daily_rows (t : list Processing.daily_row) :
  Spec.one_row_per_day t ->
  Permutation (map Notions.daily_side (Processing.build_noaa_heatwave_flags t)) t
  /\ List.length (Processing.build_noaa_heatwave_flags t) = List.length t.
Proof.
  intros Hone. pose proof (DetectorRows.flags_perm t Hone) as Hperm.
  split; [exact Hperm|].
  rewrite <- (Permutation_length Hperm). now rewrite length_map.
Qed.

Lemma flags_keep_the_daily_rows_witness :
  let t := Scenario.six_days (Some 30%Q) (Some 33%Q) None
                             (Some 35%Q) (Some 31%Q) (Some 20%Q)
                             None None None None None None in
  Spec.one_row_per_day t
  /\ Permutation (map Notions.daily_side (Processing.build_noaa_heatwave_flags t)) t
  /\ List.length (Processing.build_noaa_heatwave_flags t) = List.length t.
Proof.
  cbv zeta.
  assert (Hone : Spec.one_row_per_day
                   (Scenario.six_days (Some 30%Q) (Some 33%Q) None
                                      (Some 35%Q) (Some 31%Q) (Some 20%Q)
                                      None None None None None None)).
  { unfold Spec.one_row_per_day. vm_compute.
    repeat constructor; simpl; intuition discriminate. }
  split; [exact Hone|].
  exact (flags_keep_the_daily_rows _ Hone).
Defined.

(** X4: the detector works station by station: the flag rows of a station are
    those the detector gives on the daily rows of that station alone. *)
Theorem detector_is_per_station (t : list Processing.daily_row) (s : string)
        (o : Processing.flag_row) :
  In o (Processing.build_noaa_heatwave_flags (Spec.daily_of s t))
  <-> In o (Processing.build_noaa_heatwave_flags t) /\ Processing.f_station o = s.
Proof.
  rewrite !FlagFacts.flags_In. cbv zeta.
  assert (Hex : forall b, Processing.b_station b = s ->
            (exists d,
                In d (Processing.heatwave_days
                        (Processing.hot_grouped
                           (Processing.hot_days (Processing.base (Spec.daily_of s t))))
                        (Processing.heatwave_groups
                           (Processing.hot_grouped
                              (Processing.hot_days
                                 (Processing.base (Spec.daily_of s t))))))
                /\ Processing.b_station b = Processing.hd_station d
                /\ Time.cast_date (Processing.b_day_utc b) = Processing.hd_day_date d)
            <-> (exists d,
                    In d (Processing.heatwave_days
                            (Processing.hot_grouped
                               (Processing.hot_days (Processing.base t)))
                            (Processing.heatwave_groups
                               (Processing.hot_grouped
                                  (Processing.hot_days (Processing.base t)))))
                    /\ Processing.b_station b = Processing.hd_station d
                    /\ Time.cast_date (Processing.b_day_utc b)
                       = Processing.hd_day_date d)).
  { intros b Hb. rewrite Hb. apply DetectorRows.partner_station. }
  split.
  - intros (b & Hb & H1 & H2 & H3 & H4 & H5 & H).
    rewrite DetectorRows.base_station in Hb. apply filter_In in Hb.
    destruct Hb as [Hb Hs]. apply String.eqb_eq in Hs.
    split; [|congruence]. exists b. repeat (split; [assumption|]).
    destruct H as [[Hf Hyes]|[Hf Hno]].
    + left. split; [exact Hf|]. now apply (Hex b Hs).
    + right. split; [exact Hf|]. intros d Hd E.
      destruct (proj2 (Hex b Hs) (ex_intro _ d (conj Hd E))) as (d' & Hd' & E').
      exact (Hno d' Hd' E').
  - intros [(b & Hb & H1 & H2 & H3 & H4 & H5 & H) Hs].
    assert (Hbs : Processing.b_station b = s) by congruence.
    exists b. split.
    { rewrite DetectorRows.base_station. apply filter_In.
      split; [exact Hb|]. now apply String.eqb_eq. }
    repeat (split; [assumption|]).
    destruct H as [[Hf Hyes]|[Hf Hno]].
    + left. split; [exact Hf|]. now apply (Hex b Hbs).
    + right. split; [exact Hf|]. intros d Hd E.
      destruct (proj1 (Hex b Hbs) (ex_intro _ d (conj Hd E))) as (d' & Hd' & E').
      exact (Hno d' Hd' E').
Qed.

(** ** More on the region joiner and the daily load *)

Module LoadFacts.

Import Rel RelFacts Processing.

Lemma left_join_length {A B : Type} (on : A -> B -> bool) (l : list A)
      (r : list B) :
  List.length (left_join on l r)
  = list_sum (map (fun a => Nat.max 1 (List.length (filter (on a) r))) l).
Proof.
  induction l as [|a l IH]; [reflexivity|].
  change (left_join on (a :: l) r)
    with (match filter (on a) r with
          | [] => [(a, None)]
          | ms => map (fun b => (a, Some b)) ms
          end ++ left_join on l r).
  rewrite length_app, IH. simpl map. simpl list_sum. f_equal.
  destruct (filter (on a) r) as [|m ms]; [reflexivity|].
  cbn [List.length map]. rewrite length_map. lia.
Qed.

(** Where no two rows are equal for [eqb], [distinct] removes nothing. *)
Lemma distinct_id {A K : Type} (eqb : A -> A -> bool) (key : A -> K)
      (l : list A) :
  (forall x y, eqb x y = true -> key x = key y) ->
  NoDup (map key l) -> distinct eqb l = l.
Proof.
  intros Hkey. induction l as [|x r IH]; simpl; intros Hnd; [reflexivity|].
  inversion Hnd as [|? ? Hnotin Hrest]; subst.
  rewrite (IH Hrest). f_equal. apply filter_all.
  intros y Hy. destruct (eqb x y) eqn:E; [|reflexivity].
  exfalso. apply Hnotin. rewrite (Hkey x y E). now apply in_map.
Qed.

(** Among the distinct rows, a row equal to [x] for a transitive [eqb] is
    removed together with the rows it removes. *)
Lemma distinct_absorb {A : Type} (eqb : A -> A -> bool) (x r : A)
      (l l2 : list A) :
  (forall a b c, eqb a b = true -> eqb b c = true -> eqb a c = true) ->
  eqb x r = true ->
  filter (fun y => negb (eqb x y)) (distinct eqb (l ++ r :: l2))
  = filter (fun y => negb (eqb x y)) (distinct eqb (l ++ l2)).
Proof.
  intros Htrans Exr. induction l as [|z l IH]; simpl.
  - rewrite Exr. simpl. rewrite filter_filter. apply filter_ext_in.
    intros y _. destruct (eqb r y) eqn:Ery; simpl; [|reflexivity].
    now rewrite (Htrans x r y Exr Ery).
  - rewrite (filter_comm _ (fun y => negb (eqb z y))), IH.
    rewrite (filter_comm (fun y => negb (eqb z y))). reflexivity.
Qed.

(** A row equal to an earlier one does not change the distinct rows. *)
Lemma distinct_duplicate {A : Type} (eqb : A -> A -> bool) (r : A)
      (l1 l2 : list A) :
  (forall a, eqb a a = true) ->
  (forall a b c, eqb a b = true -> eqb b c = true -> eqb a c = true) ->
  In r l1 ->
  distinct eqb (l1 ++ r :: l2) = distinct eqb (l1 ++ l2).
Proof.
  intros Hrefl Htrans. induction l1 as [|x l1 IH]; intros Hin; [destruct Hin|].
  simpl. f_equal. destruct (eqb x r) eqn:E.
  - now apply distinct_absorb.
  - destruct Hin as [->|Hin]; [rewrite Hrefl in E; discriminate|].
    now rewrite IH.
Qed.

Lemma load_row_eqb_key (x y : Eia.load_row) :
  load_row_eqb x y = true ->
  (Eia.region x, Eia.hour_utc x) = (Eia.region y, Eia.hour_utc y).
Proof.
  unfold load_row_eqb. rewrite !andb_true_iff, String.eqb_eq, Z.eqb_eq.
  intros [[-> ->] _]. reflexivity.
Qed.

End LoadFacts.

(** X5: the join makes one output row of an input row without partner and as
    many as it has partners otherwise, so the output is never shorter than
    the flag table; a load table with several rows of one region and day
    repeats the temperature rows. *)
Theorem heat_load_daily_fan_out (n : list Processing.flag_row)
        (e : list Processing.daily_load_row) :
  List.length (Processing.heat_load_daily n e)
  = list_sum (map (Notions.fan_out e) n)
  /\ (List.length n <= List.length (Processing.heat_load_daily n e))%nat.
Proof.
  assert (Hlen : List.length (Processing.heat_load_daily n e)
                 = list_sum (map (Notions.fan_out e) n)).
  { unfold Processing.heat_load_daily.
    rewrite RelFacts.order_by_length, length_map.
    apply LoadFacts.left_join_length. }
  split; [exact Hlen|]. rewrite Hlen. clear Hlen.
  induction n as [|a n IH]; simpl; [lia|].
  unfold Notions.fan_out at 1. lia.
Qed.

(** X6: an output row of station IAD has region PJM, one of station BOS has
    region ISNE, and in both cases the load fields are those of a daily load
    row of that region and the same day, or null when there is none. *)
Theorem mapped_station_joins_its_region (n : list Processing.flag_row)
        (e : list Processing.daily_load_row) (o : Processing.heat_load_row)
        (rg : string) :
  In o (Processing.heat_load_daily n e) ->
  (Processing.station o = "IAD"%string /\ rg = "PJM"%string)
  \/ (Processing.station o = "BOS"%string /\ rg = "ISNE"%string) ->
  Processing.region o = Some rg
  /\ ((exists l, In l e /\ Processing.e_region l = rg
                 /\ Processing.e_day_utc l = Processing.day_utc o
                 /\ Processing.daily_total_mwh o = Processing.e_daily_total_mwh l
                 /\ Processing.daily_peak_mwh o = Processing.e_daily_peak_mwh l)
      \/ ((forall l, In l e -> ~ (Processing.e_region l = rg
                                  /\ Processing.e_day_utc l = Processing.day_utc o))
          /\ Processing.daily_total_mwh o = None
          /\ Processing.daily_peak_mwh o = None)).
Proof.
  intros Ho Hst. apply JoinFacts.heat_load_daily_In in Ho.
  destruct Ho as (_ & Hreg & Hload). rewrite Hreg.
  destruct Hst as [[Hs ->]|[Hs ->]]; rewrite Hs in *; split;
    try reflexivity; exact Hload.
Qed.

Lemma mapped_station_joins_its_region_witness :
  let o := {| Processing.station := "IAD";
              Processing.region := Some "PJM"%string;
              Processing.day_utc := Time.midnight 2024 7 1;
              Processing.daily_max_temp_C := Some 33%Q;
              Processing.avg_temp_C := Some 28%Q;
              Processing.is_hot_day := 1;
              Processing.is_heatwave_day := 0;
              Processing.daily_total_mwh := Some 900%Q;
              Processing.daily_peak_mwh := Some 90%Q |} in
  let e := [Scenario.load "PJM" 1 900 90; Scenario.load "ISNE" 1 370 150] in
  In o (Processing.heat_load_daily [Scenario.flag "IAD" 1] e)
  /\ Processing.region o = Some "PJM"%string.
Proof.
  cbv zeta.
  assert (Hin : In {| Processing.station := "IAD";
                      Processing.region := Some "PJM"%string;
                      Processing.day_utc := Time.midnight 2024 7 1;
                      Processing.daily_max_temp_C := Some 33%Q;
                      Processing.avg_temp_C := Some 28%Q;
                      Processing.is_hot_day := 1;
                      Processing.is_heatwave_day := 0;
                      Processing.daily_total_mwh := Some 900%Q;
                      Processing.daily_peak_mwh := Some 90%Q |}
                   (Processing.heat_load_daily
                      [Scenario.flag "IAD" 1]
                      [Scenario.load "PJM" 1 900 90; Scenario.load "ISNE" 1 370 150])).
  { vm_compute. left. reflexivity. }
  split; [exact Hin|].
  exact (proj1 (mapped_station_joins_its_region _ _ _ "PJM" Hin
                  (or_introl (conj eq_refl eq_refl)))).
Defined.

(** X7: the daily load table has exactly one row for every region and day on
    which the hourly table has a row, and no other row. *)
Theorem daily_load_has_one_row_per_region_day (hourly : list Eia.load_row) :
  NoDup (map (fun r => (Processing.e_region r, Processing.e_day_utc r))
             (Processing.build_eia_daily_load hourly))
  /\ forall rg day,
       In (rg, day) (map (fun r => (Processing.e_region r, Processing.e_day_utc r))
                         (Processing.build_eia_daily_load hourly))
       <-> exists h, In h hourly /\ Eia.region h = rg
                     /\ Time.date_trunc_day (Eia.hour_utc h) = day.
Proof.
  split; [apply JoinFacts.build_eia_daily_load_keys|].
  assert (Hspec : forall x y, Noaa.station_time_eqb x y = true <-> x = y).
  { intros [a b] [c e]. unfold Noaa.station_time_eqb. simpl.
    rewrite andb_true_iff, String.eqb_eq, Z.eqb_eq. split.
    - intros [-> ->]. reflexivity.
    - intros E. inversion E. auto. }
  intros rg day. unfold Processing.build_eia_daily_load, Rel.group_by.
  rewrite in_map_iff. split.
  - intros (row & E & Hrow). apply RelFacts.order_by_In, in_map_iff in Hrow.
    destruct Hrow as (k & <- & Hk). simpl in E.
    apply RelFacts.distinct_incl, in_map_iff in Hk. destruct Hk as (h & <- & Hh).
    apply RelFacts.distinct_incl in Hh. inversion E; subst. eauto.
  - intros (h & Hh & <- & <-).
    destruct (RelFacts.distinct_repr Processing.load_row_eqb hourly h
                AggFacts.load_row_eqb_refl AggFacts.load_row_eqb_trans Hh)
      as (h' & Hh' & E).
    apply LoadFacts.load_row_eqb_key in E. inversion E as [[E1 E2]].
    eexists. split.
    2:{ apply RelFacts.order_by_In, in_map_iff.
        exists (Eia.region h, Time.date_trunc_day (Eia.hour_utc h)).
        split; [reflexivity|].
        apply (RelFacts.distinct_In _ Hspec). apply in_map_iff. exists h'.
        split; [|exact Hh']. now rewrite E1, E2. }
    simpl. congruence.
Qed.

(** X8: on an hourly table with one row per region and hour, as the ingestion
    builds it, [SELECT DISTINCT] removes nothing: the daily total is the sum
    and the daily peak the maximum of all the hourly loads of the region and
    day. *)
Theorem daily_load_of_unique_hours (hourly : list Eia.load_row)
        (row : Processing.daily_load_row) :
  Notions.one_row_per_hour hourly ->
  In row (Processing.build_eia_daily_load hourly) ->
  Processing.hourly_unique hourly = hourly
  /\ Processing.e_daily_total_mwh row
     = Rel.SUM (map Eia.load_mwh
                    (Spec.load_readings (Processing.e_region row)
                                        (Processing.e_day_utc row) hourly))
  /\ Processing.e_daily_peak_mwh row
     = Rel.MAX (map Eia.load_mwh
                    (Spec.load_readings (Processing.e_region row)
                                        (Processing.e_day_utc row) hourly)).
Proof.
  intros Hone Hrow.
  assert (Hid : Processing.hourly_unique hourly = hourly).
  { unfold Processing.hourly_unique.
    apply (LoadFacts.distinct_id _ (fun r => (Eia.region r, Eia.hour_utc r)));
      [apply LoadFacts.load_row_eqb_key|exact Hone]. }
  split; [exact Hid|].
  pose proof (AggFacts.build_eia_daily_load_In hourly row Hrow) as H.
  cbv zeta in H. now rewrite Hid in H.
Qed.

Lemma daily_load_of_unique_hours_witness :
  let hourly := [Scenario.hourly "PJM" 0 100; Scenario.hourly "PJM" 1 150;
                 Scenario.hourly "PJM" 2 120] in
  let row := {| Processing.e_region := "PJM";
                Processing.e_day_utc := Time.midnight 2024 7 1;
                Processing.e_daily_total_mwh := Some 370%Q;
                Processing.e_daily_peak_mwh := Some 150%Q |} in
  Notions.one_row_per_hour hourly
  /\ In row (Processing.build_eia_daily_load hourly)
  /\ Processing.hourly_unique hourly = hourly.
Proof.
  cbv zeta.
  assert (Hone : Notions.one_row_per_hour
                   [Scenario.hourly "PJM" 0 100; Scenario.hourly "PJM" 1 150;
                    Scenario.hourly "PJM" 2 120]).
  { unfold Notions.one_row_per_hour. vm_compute.
    repeat constructor; simpl; intuition discriminate. }
  assert (Hin : In {| Processing.e_region := "PJM";
                      Processing.e_day_utc := Time.midnight 2024 7 1;
                      Processing.e_daily_total_mwh := Some 370%Q;
                      Processing.e_daily_peak_mwh := Some 150%Q |}
                   (Processing.build_eia_daily_load
                      [Scenario.hourly "PJM" 0 100; Scenario.hourly "PJM" 1 150;
                       Scenario.hourly "PJM" 2 120])).
  { vm_compute. left. reflexivity. }
  split; [exact Hone|]. split; [exact Hin|].
  exact (proj1 (daily_load_of_unique_hours _ _ Hone Hin)).
Defined.

(** X9: an hourly row that repeats an earlier row of the table in region, hour
    and load leaves the daily load table as it is without the repetition. *)
Theorem repeated_hourly_row_is_ignored (l1 l2 : list Eia.load_row)
        (r : Eia.load_row) :
  In r l1 ->
  Processing.build_eia_daily_load (l1 ++ r :: l2)
  = Processing.build_eia_daily_load (l1 ++ l2).
Proof.
  intros Hin. unfold Processing.build_eia_daily_load, Processing.hourly_unique.
  now rewrite (LoadFacts.distinct_duplicate _ r l1 l2
                 AggFacts.load_row_eqb_refl AggFacts.load_row_eqb_trans Hin).
Qed.

Lemma repeated_hourly_row_is_ignored_witness :
  Processing.build_eia_daily_load
    ([Scenario.hourly "PJM" 0 100; Scenario.hourly "PJM" 1 150]
       ++ Scenario.hourly "PJM" 0 100 :: [Scenario.hourly "PJM" 2 120])
  = Processing.build_eia_daily_load
      ([Scenario.hourly "PJM" 0 100; Scenario.hourly "PJM" 1 150]
         ++ [Scenario.hourly "PJM" 2 120]).
Proof.
  exact (repeated_hourly_row_is_ignored
           [Scenario.hourly "PJM" 0 100; Scenario.hourly "PJM" 1 150]
           [Scenario.hourly "PJM" 2 120]
           (Scenario.hourly "PJM" 0 100) (or_introl eq_refl)).
Defined.

(** ** The temperature aggregators *)

Module TempFacts.

Import Rel RelFacts Processing.

Lemma q_max_ge_init (l : list Q) (x : Q) : (x <= q_max x l)%Q.
Proof.
  unfold q_max. revert x. induction l as [|v r IH]; intros x; simpl.
  - apply Qle_refl.
  - apply Qle_trans with (Qmax x v); [apply Q.le_max_l|apply IH].
Qed.

Lemma q_max_ge (l : list Q) (x v : Q) : In v l -> (v <= q_max x l)%Q.
Proof.
  unfold q_max. revert x. induction l as [|w r IH]; intros x Hin; [destruct Hin|].
  simpl. destruct Hin as [->|Hin]; [|now apply IH].
  apply Qle_trans with (Qmax x v); [apply Q.le_max_r|apply q_max_ge_init].
Qed.

Lemma q_max_attained (l : list Q) (x : Q) :
  exists v, In v (x :: l) /\ (v == q_max x l)%Q.
Proof.
  unfold q_max. revert x. induction l as [|w r IH]; intros x; simpl.
  - exists x. split; [now left|reflexivity].
  - destruct (IH (Qmax x w)) as (v & [Hv|Hv] & E).
    + destruct (Q.max_dec x w) as [Hm|Hm].
      * exists x. split; [now left|]. now rewrite <- E, <- Hv, Hm.
      * exists w. split; [right; now left|]. now rewrite <- E, <- Hv, Hm.
    + exists v. split; [right; now right|exact E].
Qed.

(** A row of the daily table aggregates the hourly temperatures of its
    station and day, and there is such an hourly row. *)
Lemma build_noaa_daily_In (hourly : list Noaa.avg_row) (row : daily_row) :
  In row (build_noaa_daily hourly) ->
  d_daily_max_temp_C row
  = MAX (Notions.day_temps (d_station row) (d_day_utc row) hourly)
  /\ d_avg_temp_C row
     = AVG (Notions.day_temps (d_station row) (d_day_utc row) hourly)
  /\ exists h, In h hourly /\ Noaa.a_station h = d_station row
               /\ Time.date_trunc_day (Noaa.a_hour_utc h) = d_day_utc row.
Proof.
  unfold build_noaa_daily, group_by. rewrite order_by_In, in_map_iff.
  intros ([s day] & <- & Hk). simpl. repeat split.
  apply distinct_incl, in_map_iff in Hk. destruct Hk as (h & E & Hh).
  inversion E. eauto.
Qed.

Lemma station_time_eqb_spec (x y : string * Z) :
  Noaa.station_time_eqb x y = true <-> x = y.
Proof.
  destruct x as [a b], y as [c e]. unfold Noaa.station_time_eqb. simpl.
  rewrite andb_true_iff, String.eqb_eq, Z.eqb_eq. split.
  - intros [-> ->]. reflexivity.
  - intros E. inversion E. auto.
Qed.

(** The daily maximum against the hourly temperatures of its day. *)
Lemma daily_max_spec (hourly : list Noaa.avg_row) (row : daily_row) :
  In row (build_noaa_daily hourly) ->
  match d_daily_max_temp_C row with
  | None => forall v, ~ In (Some v) (Notions.day_temps (d_station row)
                                                       (d_day_utc row) hourly)
  | Some m => (exists v, In (Some v) (Notions.day_temps (d_station row)
                                                        (d_day_utc row) hourly)
                         /\ (v == m)%Q)
              /\ forall v, In (Some v) (Notions.day_temps (d_station row)
                                                          (d_day_utc row) hourly) ->
                           (v <= m)%Q
  end.
Proof.
  intros Hrow.
  destruct (build_noaa_daily_In hourly row Hrow) as (-> & _ & _).
  unfold MAX.
  destruct (non_null (Notions.day_temps (d_station row) (d_day_utc row) hourly))
    as [|x l] eqn:E.
  - intros v Hv. apply non_null_In in Hv. rewrite E in Hv. destruct Hv.
  - split.
    + destruct (q_max_attained l x) as (v & Hv & Hmax).
      exists v. split; [|exact Hmax]. apply non_null_In. now rewrite E.
    + intros v Hv. apply non_null_In in Hv. rewrite E in Hv.
      destruct Hv as [->|Hv]; [apply q_max_ge_init|now apply q_max_ge].
Qed.

(** A row of the hourly table: a full hour and the mean of its samples. *)
Lemma hourly_avg_row (temp : list Noaa.temp_row) (row : Noaa.avg_row) :
  In row (Noaa.build_noaa_hourly_avg temp) ->
  Noaa.a_hour_utc row mod 3600 = 0
  /\ Noaa.a_temp_C row
     = AVG (Notions.hour_samples (Noaa.a_station row) (Noaa.a_hour_utc row) temp).
Proof.
  unfold Noaa.build_noaa_hourly_avg, group_by. intros H.
  apply order_by_In, in_map_iff in H.
  destruct H as ([s h] & <- & Hk). simpl. split; [|reflexivity].
  apply distinct_incl, in_map_iff in Hk.
  destruct Hk as (r & E & _). inversion E. unfold Time.date_trunc_hour.
  apply Z.mod_mul. lia.
Qed.

End TempFacts.

(** X10: on every row of the daily temperature table, the daily maximum is
    null exactly when every hourly temperature of the station and day is
    null; otherwise it is one of these hourly temperatures and none of them
    exceeds it. *)
Theorem daily_max_is_the_highest_hourly (hourly : list Noaa.avg_row)
        (row : Processing.daily_row) :
  In row (Processing.build_noaa_daily hourly) ->
  let temps := Notions.day_temps (Processing.d_station row)
                                 (Processing.d_day_utc row) hourly in
  match Processing.d_daily_max_temp_C row with
  | None => forall v, ~ In (Some v) temps
  | Some m => (exists v, In (Some v) temps /\ (v == m)%Q)
              /\ forall v, In (Some v) temps -> (v <= m)%Q
  end.
Proof.
  intros Hrow. cbv zeta. now apply TempFacts.daily_max_spec.
Qed.

Lemma daily_max_is_the_highest_hourly_witness :
  let hourly := [ {| Noaa.a_station := "X";
                     Noaa.a_hour_utc := Time.midnight 2024 7 1;
                     Noaa.a_temp_C := Some 20%Q |};
                  {| Noaa.a_station := "X";
                     Noaa.a_hour_utc := Time.midnight 2024 7 1 + 3600;
                     Noaa.a_temp_C := None |};
                  {| Noaa.a_station := "X";
                     Noaa.a_hour_utc := Time.midnight 2024 7 1 + 7200;
                     Noaa.a_temp_C := Some 25%Q |} ] in
  let row := {| Processing.d_station := "X";
                Processing.d_day_utc := Time.midnight 2024 7 1;
                Processing.d_daily_max_temp_C := Some 25%Q;
                Processing.d_avg_temp_C := Some (45 # 2)%Q |} in
  In row (Processing.build_noaa_daily hourly)
  /\ forall v, In (Some v) (Notions.day_temps "X" (Time.midnight 2024 7 1) hourly) ->
               (v <= 25)%Q.
Proof.
  cbv zeta.
  assert (Hin : In {| Processing.d_station := "X";
                      Processing.d_day_utc := Time.midnight 2024 7 1;
                      Processing.d_daily_max_temp_C := Some 25%Q;
                      Processing.d_avg_temp_C := Some (45 # 2)%Q |}
                   (Processing.build_noaa_daily
                      [ {| Noaa.a_station := "X";
                           Noaa.a_hour_utc := Time.midnight 2024 7 1;
                           Noaa.a_temp_C := Some 20%Q |};
                        {| Noaa.a_station := "X";
                           Noaa.a_hour_utc := Time.midnight 2024 7 1 + 3600;
                           Noaa.a_temp_C := None |};
                        {| Noaa.a_station := "X";
                           Noaa.a_hour_utc := Time.midnight 2024 7 1 + 7200;
                           Noaa.a_temp_C := Some 25%Q |} ])).
  { vm_compute. left. reflexivity. }
  split; [exact Hin|].
  exact (proj2 (daily_max_is_the_highest_hourly _ _ Hin)).
Defined.

(** X12: the hourly table has one row per station and hour; the hour of a row
    is a full hour and its temperature the mean of the samples of that
    station and hour that are not null; every sample falls into the row of
    its station whose hour begins at or before it and less than 3600 seconds
    before it (truncation, not rounding). *)
Theorem hourly_avg_buckets (temp : list Noaa.temp_row) :
  NoDup (map (fun r => (Noaa.a_station r, Noaa.a_hour_utc r))
             (Noaa.build_noaa_hourly_avg temp))
  /\ (forall row, In row (Noaa.build_noaa_hourly_avg temp) ->
        Noaa.a_hour_utc row mod 3600 = 0
        /\ Noaa.a_temp_C row
           = Rel.AVG (Notions.hour_samples (Noaa.a_station row)
                                           (Noaa.a_hour_utc row) temp))
  /\ (forall r, In r temp ->
        exists row, In row (Noaa.build_noaa_hourly_avg temp)
                    /\ Noaa.a_station row = Noaa.t_station r
                    /\ Noaa.a_hour_utc row <= Noaa.t_ts_utc r
                       < Noaa.a_hour_utc row + 3600).
Proof.
  unfold Noaa.build_noaa_hourly_avg, Rel.group_by. split; [|split].
  - eapply Permutation_NoDup.
    { apply Permutation_map. symmetry. apply RelFacts.order_by_perm. }
    rewrite map_map. simpl.
    rewrite (map_ext _ (fun k => k)) by (intros []; reflexivity).
    rewrite map_id.
    apply RelFacts.distinct_NoDup, TempFacts.station_time_eqb_spec.
  - intros row H.
    now apply (TempFacts.hourly_avg_row temp row).
  - intros r Hr. eexists. split.
    { apply RelFacts.order_by_In, in_map_iff.
      exists (Noaa.t_station r, Time.date_trunc_hour (Noaa.t_ts_utc r)).
      split; [reflexivity|].
      apply (RelFacts.distinct_In _ TempFacts.station_time_eqb_spec).
      apply in_map_iff. exists r. auto. }
    simpl. split; [reflexivity|]. unfold Time.date_trunc_hour.
    pose proof (Z.mod_pos_bound (Noaa.t_ts_utc r) 3600 ltac:(lia)).
    pose proof (Z.div_mod (Noaa.t_ts_utc r) 3600 ltac:(lia)). lia.
Qed.

(** X13: from the two hourly tables to [heat_load_daily], the script keeps
    exactly the rows of the daily temperature table, with their
    temperatures: the output has one row per station and calendar day, and
    none twice. *)
Theorem pipeline_has_one_row_per_station_day (noaa_hourly_avg : list Noaa.avg_row)
        (eia_load_hourly : list Eia.load_row) :
  let out := Processing.main noaa_hourly_avg eia_load_hourly in
  Permutation (map (fun o => Notions.daily_side (Spec.temperature_side o)) out)
              (Processing.build_noaa_daily noaa_hourly_avg)
  /\ NoDup (map (fun o => (Processing.station o,
                           Time.cast_date (Processing.day_utc o))) out).
Proof.
  cbv zeta. unfold Processing.main.
  pose proof (build_noaa_daily_one_row_per_day noaa_hourly_avg) as Hone.
  assert (Hperm :
    Permutation
      (map (fun o => Notions.daily_side (Spec.temperature_side o))
           (Processing.heat_load_daily
              (Processing.build_noaa_heatwave_flags
                 (Processing.build_noaa_daily noaa_hourly_avg))
              (Processing.build_eia_daily_load eia_load_hourly)))
      (Processing.build_noaa_daily noaa_hourly_avg)).
  { rewrite <- (map_map Spec.temperature_side Notions.daily_side).
    rewrite (Permutation_map _
               (JoinFacts.heat_load_daily_perm _ _
                  (JoinFacts.build_eia_daily_load_keys eia_load_hourly))).
    now apply DetectorRows.flags_perm. }
  split; [exact Hperm|].
  unfold Spec.one_row_per_day in Hone.
  apply (Permutation_map
           (fun r => (Processing.d_station r,
                      Time.cast_date (Processing.d_day_utc r)))) in Hperm.
  rewrite map_map in Hperm. simpl in Hperm.
  apply (Permutation_NoDup (Permutation_sym Hperm) Hone).
Qed.

(** X14: on the rows the script produces, the label of [load_data] is Normal
    Day exactly on the days that are not hot, Hot Day exactly on the hot days
    that are no heatwave days, and Heatwave Day exactly on the heatwave days;
    relabelling the heatwave days last never hides a day that is not hot. *)
Theorem day_type_of_pipeline_rows (noaa_hourly_avg : list Noaa.avg_row)
        (eia_load_hourly : list Eia.load_row) (o : Processing.heat_load_row) :
  In o (Processing.main noaa_hourly_avg eia_load_hourly) ->
  (Analysis.day_type o = "Normal Day"%string <-> Processing.is_hot_day o = 0)
  /\ (Analysis.day_type o = "Hot Day"%string
      <-> Processing.is_hot_day o = 1 /\ Processing.is_heatwave_day o = 0)
  /\ (Analysis.day_type o = "Heatwave Day"%string
      <-> Processing.is_heatwave_day o = 1).
Proof.
  intros Ho. unfold Processing.main in Ho.
  apply JoinFacts.heat_load_daily_In in Ho. destruct Ho as (Ho & _).
  pose proof (build_noaa_daily_one_row_per_day noaa_hourly_avg) as Hone.
  pose proof (DetectorFacts.flag_hot_bit _ _ Ho) as Hhot.
  pose proof (DetectorFacts.flag_heatwave_bit _ _ Ho) as Hwave.
  pose proof (FlagFacts.not_hot_not_heatwave _ _ Hone Ho) as Himp.
  simpl in Hhot, Hwave, Himp. unfold Analysis.day_type. cbv zeta.
  destruct Hhot as [Hh|Hh], Hwave as [Hw|Hw]; rewrite Hh, Hw in *; simpl;
    try (specialize (Himp eq_refl); discriminate);
    repeat split; intros; try discriminate; try lia; try tauto;
    try (destruct H; discriminate).
Qed.

Lemma day_type_of_pipeline_rows_witness :
  let noaa := [ {| Noaa.a_station := "BOS";
                   Noaa.a_hour_utc := Time.midnight 2024 7 1 + 3600;
                   Noaa.a_temp_C := Some 33%Q |} ] in
  let o := {| Processing.station := "BOS";
              Processing.region := Some "ISNE"%string;
              Processing.day_utc := Time.midnight 2024 7 1;
              Processing.daily_max_temp_C := Some 33%Q;
              Processing.avg_temp_C := Some (33 / 1)%Q;
              Processing.is_hot_day := 1;
              Processing.is_heatwave_day := 0;
              Processing.daily_total_mwh := None;
              Processing.daily_peak_mwh := None |} in
  In o (Processing.main noaa [])
  /\ (Analysis.day_type o = "Hot Day"%string
      <-> Processing.is_hot_day o = 1 /\ Processing.is_heatwave_day o = 0).
Proof.
  cbv zeta.
  assert (Hin : In {| Processing.station := "BOS";
                      Processing.region := Some "ISNE"%string;
                      Processing.day_utc := Time.midnight 2024 7 1;
                      Processing.daily_max_temp_C := Some 33%Q;
                      Processing.avg_temp_C := Some (33 / 1)%Q;
                      Processing.is_hot_day := 1;
                      Processing.is_heatwave_day := 0;
                      Processing.daily_total_mwh := None;
                      Processing.daily_peak_mwh := None |}
                   (Processing.main
                      [ {| Noaa.a_station := "BOS";
                           Noaa.a_hour_utc := Time.midnight 2024 7 1 + 3600;
                           Noaa.a_temp_C := Some 33%Q |} ] [])).
  { vm_compute. left. reflexivity. }
  split; [exact Hin|].
  exact (proj1 (proj2 (day_type_of_pipeline_rows _ _ _ Hin))).
Defined.

(** ** Fetching and ingesting the hourly load *)

Module IngestFacts.

Import Rel RelFacts EiaIngest.

Lemma page_size_pos : (0 < page_size)%nat.
Proof. apply Nat.ltb_lt. vm_compute. reflexivity. Qed.

Lemma fetch_pages_step {A : Type} (fuel : nat) (get : nat -> option (list A))
      (offset : nat) (all_rows : list A) :
  fetch_pages (S fuel) get offset all_rows
  = match get offset with
    | None => Raised
    | Some [] => Returned all_rows
    | Some rows =>
        if (List.length rows <? page_size)%nat
        then Returned (all_rows ++ rows)
        else fetch_pages fuel get (offset + page_size)%nat (all_rows ++ rows)
    end.
Proof.
  change (fetch_pages (S fuel) get offset all_rows)
    with (match get offset with
          | None => Raised
          | Some [] => Returned all_rows
          | Some rows =>
              let all_rows := all_rows ++ rows in
              if (List.length rows <? page_size)%nat then Returned all_rows
              else fetch_pages fuel get (offset + page_size)%nat all_rows
          end).
  destruct (get offset) as [[|r rs]|]; reflexivity.
Qed.

(** Against a service that pages through [data], the loop returns what it
    had and the rest of [data] from its offset on. *)
Lemma fetch_pages_serve {A : Type} (data : list A) (fuel offset : nat)
      (all_rows : list A) :
  (List.length (skipn offset data) < fuel * page_size)%nat ->
  fetch_pages fuel (serve data) offset all_rows
  = Returned (all_rows ++ skipn offset data).
Proof.
  pose proof page_size_pos as Hpos.
  revert offset all_rows.
  induction fuel as [|fuel IH]; intros offset all_rows Hlen.
  - rewrite Nat.mul_0_l in Hlen. lia.
  - rewrite fetch_pages_step. unfold serve.
    rewrite Nat.mul_succ_l in Hlen.
    destruct (firstn page_size (skipn offset data)) as [|r rs] eqn:E.
    + apply (f_equal (@List.length A)) in E. rewrite length_firstn in E.
      change (List.length (@nil A)) with O in E.
      assert (Hnil : skipn offset data = [])
        by (apply length_zero_iff_nil; lia).
      now rewrite Hnil, app_nil_r.
    + rewrite <- E.
      destruct (List.length (firstn page_size (skipn offset data)) <? page_size)%nat
        eqn:L.
      * apply Nat.ltb_lt in L. rewrite length_firstn in L.
        rewrite firstn_all2 by lia. reflexivity.
      * apply Nat.ltb_ge in L. rewrite length_firstn in L.
        rewrite IH.
        -- rewrite (Nat.add_comm offset), <- skipn_skipn, <- app_assoc.
           now rewrite firstn_skipn.
        -- rewrite (Nat.add_comm offset), <- skipn_skipn, length_skipn. lia.
Qed.

(** The hourly load table the ingestion makes has one row per region and
    hour. *)
Lemma eia_load_hourly_keys (strptime : string -> option Z)
      (raw : list raw_row) (t : list Eia.load_row) :
  eia_load_hourly strptime raw = Some t -> Notions.one_row_per_hour t.
Proof.
  unfold eia_load_hourly. destruct raw as [|r0 raw]; [discriminate|].
  destruct (all_some _) as [rows|]; [|discriminate].
  intros E. injection E as <-.
  unfold Notions.one_row_per_hour, group_by.
  eapply Permutation_NoDup.
  { apply Permutation_map. symmetry. apply order_by_perm. }
  rewrite map_map. simpl.
  rewrite (map_ext _ (fun k => k)) by (intros []; reflexivity).
  rewrite map_id.
  apply distinct_NoDup, TempFacts.station_time_eqb_spec.
Qed.

(** So its observations of one region and hour agree. *)
Lemma eia_load_hourly_agree (strptime : string -> option Z)
      (raw : list raw_row) (t : list Eia.load_row) :
  eia_load_hourly strptime raw = Some t -> Notions.loads_agree t.
Proof.
  intros E x y Hx Hy Hr Hh.
  assert (Exy : x = y).
  { apply (FlagFacts.NoDup_map_inj (fun r => (Eia.region r, Eia.hour_utc r)) t);
      [exact (eia_load_hourly_keys _ _ _ E)|exact Hx|exact Hy|congruence]. }
  subst y. destruct (Eia.load_mwh x); simpl; [|reflexivity].
  apply Qeq_bool_iff. reflexivity.
Qed.

End IngestFacts.

(** X15: with an API key and against a service that pages through a data set,
    [fetch_eia_data] returns every row of the data set once and in order,
    whatever the size of the data set is against the page size, when it is
    given one request more than the data set has full pages. *)
Theorem fetch_collects_every_row {A : Type} (key : string) (data : list A)
        (fuel : nat) :
  key <> EmptyString ->
  (List.length data < fuel * EiaIngest.page_size)%nat ->
  EiaIngest.fetch_eia_data (Some key) fuel (EiaIngest.serve data)
  = EiaIngest.Returned data.
Proof.
  intros Hkey Hlen. unfold EiaIngest.fetch_eia_data.
  destruct key as [|c k]; [contradiction|].
  now rewrite IngestFacts.fetch_pages_serve.
Qed.

Lemma fetch_collects_every_row_witness :
  EiaIngest.fetch_eia_data (Some "k"%string) 1 (EiaIngest.serve [1; 2; 3])
  = EiaIngest.Returned [1; 2; 3].
Proof.
  apply (fetch_collects_every_row "k" [1; 2; 3] 1).
  - discriminate.
  - apply Nat.ltb_lt. vm_compute. reflexivity.
Defined.

(** X17: the hourly load table the ingestion makes has one row per region and
    hour, so the [SELECT DISTINCT] of [build_eia_daily_load] removes none of
    its rows. *)
Theorem ingested_hourly_load_has_unique_hours (strptime : string -> option Z)
        (raw : list EiaIngest.raw_row) (t : list Eia.load_row) :
  EiaIngest.eia_load_hourly strptime raw = Some t ->
  Notions.one_row_per_hour t /\ Processing.hourly_unique t = t.
Proof.
  intros E. pose proof (IngestFacts.eia_load_hourly_keys _ _ _ E) as Hone.
  split; [exact Hone|].
  apply (LoadFacts.distinct_id _ (fun r => (Eia.region r, Eia.hour_utc r)));
    [apply LoadFacts.load_row_eqb_key|exact Hone].
Qed.

Lemma ingested_hourly_load_has_unique_hours_witness :
  let strptime := fun _ : string => Some 0 in
  let raw := [ {| EiaIngest.period := "2024-07-01T00";
                  EiaIngest.parent := "ISNE";
                  EiaIngest.subba := "4007";
                  EiaIngest.value_mwh := Some 100%Q |};
               {| EiaIngest.period := "2024-07-01T00";
                  EiaIngest.parent := "ISNE";
                  EiaIngest.subba := "4008";
                  EiaIngest.value_mwh := Some 150%Q |} ] in
  let t := [ {| Eia.region := "ISNE";
                Eia.hour_utc := 0;
                Eia.load_mwh := Some 250%Q |} ] in
  EiaIngest.eia_load_hourly strptime raw = Some t
  /\ Notions.one_row_per_hour t /\ Processing.hourly_unique t = t.
Proof.
  cbv zeta.
  assert (E : EiaIngest.eia_load_hourly
                (fun _ : string => Some 0)
                [ {| EiaIngest.period := "2024-07-01T00";
                     EiaIngest.parent := "ISNE";
                     EiaIngest.subba := "4007";
                     EiaIngest.value_mwh := Some 100%Q |};
                  {| EiaIngest.period := "2024-07-01T00";
                     EiaIngest.parent := "ISNE";
                     EiaIngest.subba := "4008";
                     EiaIngest.value_mwh := Some 150%Q |} ]
              = Some [ {| Eia.region := "ISNE";
                          Eia.hour_utc := 0;
                          Eia.load_mwh := Some 250%Q |} ])
    by (vm_compute; reflexivity).
  split; [exact E|].
  exact (ingested_hourly_load_has_unique_hours _ _ _ E).
Defined.

(** ** The combined hourly table *)

Module CombineFacts.

Import Rel RelFacts Combine.

Lemma deleted_false (r : combine_row) :
  deleted r = false
  <-> forall v, load_mwh r = Some v -> (0 < v)%Q /\ (v <= 500000)%Q.
Proof.
  unfold deleted. destruct (load_mwh r) as [v|].
  - rewrite orb_false_iff, negb_false_iff, Qle_bool_iff. split.
    + intros [H1 H2] w E. injection E as <-. split; [|exact H1].
      apply Qnot_le_lt. intros H. apply Qle_bool_iff in H. congruence.
    + intros H. destruct (H v eq_refl) as [H1 H2]. split; [exact H2|].
      destruct (Qle_bool v 0) eqn:E; [|reflexivity].
      apply Qle_bool_iff in E. exfalso. apply (Qlt_not_le _ _ H1 E).
  - split; [discriminate|reflexivity].
Qed.

(** The rows of [base_combine]. *)
Lemma combine_table_In (noaa : list Noaa.avg_row) (eia : list Eia.load_row)
      (o : combine_row) :
  In o (combine_table noaa eia) <->
  exists n e rg,
    In n noaa /\ In e eia /\ In (Noaa.a_station n, rg) mapping
    /\ Eia.region e = rg /\ Eia.hour_utc e = Noaa.a_hour_utc n
    /\ o = {| hour_utc := Noaa.a_hour_utc n;
              location := Noaa.a_station n;
              temp := Noaa.a_temp_C n;
              load_mwh := Eia.load_mwh e |}
    /\ forall v, Eia.load_mwh e = Some v -> (0 < v)%Q /\ (v <= 500000)%Q.
Proof.
  unfold combine_table, inner_join.
  rewrite filter_In, order_by_In, in_map_iff, negb_true_iff, deleted_false.
  split.
  - intros [([[n m] e] & <- & Hin) Hload]. cbn [load_mwh fst snd] in Hload.
    apply in_flat_map in Hin. destruct Hin as ([n' m'] & Hnm & He).
    apply in_map_iff in He. destruct He as (e' & E & He).
    injection E as -> -> ->.
    apply filter_In in He. destruct He as [He Hon].
    apply andb_true_iff in Hon. destruct Hon as [H1 H2].
    apply String.eqb_eq in H1. apply Z.eqb_eq in H2.
    cbn [fst snd] in H1, H2.
    apply in_flat_map in Hnm. destruct Hnm as (n' & Hn & Hm).
    apply in_map_iff in Hm. destruct Hm as (m' & E & Hm).
    injection E as -> ->.
    apply filter_In in Hm. destruct Hm as [Hm Hs].
    apply String.eqb_eq in Hs.
    exists n, e, (snd m). cbn [fst snd].
    split; [exact Hn|]. split; [exact He|].
    split; [rewrite Hs; now destruct m|].
    split; [exact H1|]. split; [exact H2|]. split; [reflexivity|exact Hload].
  - intros (n & e & rg & Hn & He & Hm & Hrg & Hh & -> & Hload).
    split; [|exact Hload].
    exists (n, (Noaa.a_station n, rg), e). split; [reflexivity|].
    apply in_flat_map. exists (n, (Noaa.a_station n, rg)). split.
    + apply in_flat_map. exists n. split; [exact Hn|].
      apply in_map_iff. eexists. split; [reflexivity|].
      apply filter_In. split; [exact Hm|]. apply String.eqb_refl.
    + apply in_map_iff. exists e. split; [reflexivity|].
      apply filter_In. split; [exact He|]. cbn [fst snd].
      now rewrite Hrg, Hh, String.eqb_refl, Z.eqb_refl.
Qed.

End CombineFacts.

(** X18: a row is in [base_combine] exactly when it puts an hourly temperature
    row of a station of the mapping beside an hourly load row of the mapped
    region at the same hour, and the load is null or above 0 and at most
    500000; a null load is not deleted. *)
Theorem combine_table_rows (noaa : list Noaa.avg_row) (eia : list Eia.load_row)
        (o : Combine.combine_row) :
  In o (Combine.combine_table noaa eia) <->
  exists n e rg,
    In n noaa /\ In e eia /\ In (Noaa.a_station n, rg) Combine.mapping
    /\ Eia.region e = rg /\ Eia.hour_utc e = Noaa.a_hour_utc n
    /\ o = {| Combine.hour_utc := Noaa.a_hour_utc n;
              Combine.location := Noaa.a_station n;
              Combine.temp := Noaa.a_temp_C n;
              Combine.load_mwh := Eia.load_mwh e |}
    /\ forall v, Eia.load_mwh e = Some v -> (0 < v)%Q /\ (v <= 500000)%Q.
Proof. apply CombineFacts.combine_table_In. Qed.

(** X19: no row of [base_combine] has a load of 0 or less or above 500000, and
    none belongs to a station outside the mapping: the stations ATL, DFW and
    SEA, which the NOAA ingestion labels, never reach the table. *)
Theorem combine_table_is_clean (noaa : list Noaa.avg_row)
        (eia : list Eia.load_row) (o : Combine.combine_row) :
  In o (Combine.combine_table noaa eia) ->
  (forall v, Combine.load_mwh o = Some v -> (0 < v)%Q /\ (v <= 500000)%Q)
  /\ In (Combine.location o) ["IAD"; "BOS"; "NYC"; "LAX"]%string
  /\ Combine.location o <> "ATL"%string
  /\ Combine.location o <> "DFW"%string
  /\ Combine.location o <> "SEA"%string.
Proof.
  intros Ho. apply CombineFacts.combine_table_In in Ho.
  destruct Ho as (n & e & rg & _ & _ & Hm & _ & _ & -> & Hload). simpl.
  split; [exact Hload|].
  unfold Combine.mapping in Hm. simpl in Hm.
  destruct Hm as [E|[E|[E|[E|[]]]]]; inversion E as [[Es Er]];
    (split; [simpl; tauto|repeat split; discriminate]).
Qed.

Lemma combine_table_is_clean_witness :
  let noaa := [ {| Noaa.a_station := "BOS";
                   Noaa.a_hour_utc := 0;
                   Noaa.a_temp_C := Some 25%Q |} ] in
  let eia := [ {| Eia.region := "ISNE"; Eia.hour_utc := 0;
                  Eia.load_mwh := None |} ] in
  let o := {| Combine.hour_utc := 0;
              Combine.location := "BOS";
              Combine.temp := Some 25%Q;
              Combine.load_mwh := None |} in
  In o (Combine.combine_table noaa eia)
  /\ In (Combine.location o) ["IAD"; "BOS"; "NYC"; "LAX"]%string.
Proof.
  cbv zeta.
  assert (Hin : In {| Combine.hour_utc := 0;
                      Combine.location := "BOS";
                      Combine.temp := Some 25%Q;
                      Combine.load_mwh := None |}
                   (Combine.combine_table
                      [ {| Noaa.a_station := "BOS";
                           Noaa.a_hour_utc := 0;
                           Noaa.a_temp_C := Some 25%Q |} ]
                      [ {| Eia.region := "ISNE"; Eia.hour_utc := 0;
                           Eia.load_mwh := None |} ])).
  { vm_compute. left. reflexivity. }
  split; [exact Hin|].
  exact (proj1 (proj2 (combine_table_is_clean _ _ _ Hin))).
Defined.

(** X21: joined with an empty daily load table, the output still has every row
    of the flag table, each once, and all its load fields are null. *)
Theorem heat_load_daily_without_load (n : list Processing.flag_row) :
  Permutation (map Spec.temperature_side (Processing.heat_load_daily n [])) n
  /\ forall o, In o (Processing.heat_load_daily n []) ->
               Processing.daily_total_mwh o = None
               /\ Processing.daily_peak_mwh o = None.
Proof.
  split.
  - apply JoinFacts.heat_load_daily_perm. constructor.
  - intros o Ho. apply JoinFacts.heat_load_daily_In in Ho.
    destruct Ho as (_ & _ & [(l & [] & _)|(_ & H)]). exact H.
Qed.

(** ** Hours observed more than once *)

Module DuplicateFacts.

Import Rel RelFacts.


End DuplicateFacts.


